(** * The invoice composer of AIly, embedded and verified

    Source: [src/frontend/src/pages/Agent.jsx], the jsPDF module that follows
    the chat component there (lines 122-434): [createPDFDocument],
    [generatePDF] and [generatePDFBase64].

    JavaScript numbers are IEEE 754 binary64 values; they are modelled by
    Rocq's primitive floats, which are the same binary64 values with the same
    rounding.  The builtins the composer calls on them ([parseFloat],
    [Number.prototype.toFixed], [Number.prototype.toString], [Math.max]) are
    written out after ECMA-262.  JavaScript strings are modelled by [string]
    (sequences of 8-bit characters); case conversion is the ASCII one.

    What jsPDF and the host decide (where a table ends, how a paragraph is
    wrapped, the page height, the locale's date format, the bytes of the PDF)
    is the interface [Host]; the composer is parametric in it.  What
    [new jsPDF()] draws for each object it creates (a random file
    identifier, the time of creation) is an argument of the two entry
    points. *)

From Stdlib Require Import ZArith List String Ascii Bool Lia DecimalString.
From Stdlib Require Import PrimFloat SpecFloat FloatOps FloatAxioms.
Import ListNotations.

Set Warnings "-inexact-float".

Open Scope string_scope.

(* ================================================================== *)
(** * Strings *)

Module JSString.

Definition isUpper (c : ascii) : bool :=
  let n := N_of_ascii c in (65 <=? n)%N && (n <=? 90)%N.

Definition isLower (c : ascii) : bool :=
  let n := N_of_ascii c in (97 <=? n)%N && (n <=? 122)%N.

Definition lowerChar (c : ascii) : ascii :=
  if isUpper c then ascii_of_N (N_of_ascii c + 32) else c.

Definition upperChar (c : ascii) : ascii :=
  if isLower c then ascii_of_N (N_of_ascii c - 32) else c.

Fixpoint mapChars (f : ascii -> ascii) (s : string) : string :=
  match s with
  | EmptyString => EmptyString
  | String c r => String (f c) (mapChars f r)
  end.

(** [String.prototype.toLowerCase], [String.prototype.toUpperCase]. *)
Definition toLowerCase : string -> string := mapChars lowerChar.
Definition toUpperCase : string -> string := mapChars upperChar.

(** [String.prototype.includes]: [sub] occurs in [s] at some position. *)
Fixpoint includes (s sub : string) : bool :=
  String.prefix sub s ||
  match s with
  | EmptyString => false
  | String _ r => includes r sub
  end.

(** [String.prototype.split] with a one-character separator. *)
Fixpoint splitAcc (sep : ascii) (s : string) (cur : string) : list string :=
  match s with
  | EmptyString => [cur]
  | String c r =>
      if (c =? sep)%char then cur :: splitAcc sep r ""
      else splitAcc sep r (cur ++ String c "")
  end.

Definition split (sep : ascii) (s : string) : list string := splitAcc sep s "".

(** A text property of a JavaScript object: [None] when it is [undefined] or
    [null].  The empty string is falsy as well. *)
Definition truthy (o : option string) : bool :=
  match o with
  | Some (String _ _) => true
  | _ => false
  end.

(** [o || d] for a text property [o]. *)
Definition orElse (o : option string) (d : string) : string :=
  match o with
  | Some (String c r) => String c r
  | _ => d
  end.

(** The 64 characters of base64 and [btoa] over a binary string. *)
Definition alphabet : string :=
  "ABCDEFGHIJKLMNOPQRSTUVWXYZabcdefghijklmnopqrstuvwxyz0123456789+/".

Definition sextet (n : N) : ascii :=
  match String.get (N.to_nat n) alphabet with
  | Some c => c
  | None => "A"%char
  end.

Fixpoint btoa (s : string) : string :=
  match s with
  | EmptyString => ""
  | String a EmptyString =>
      let x := N_of_ascii a in
      String (sextet (x / 4)) (String (sextet (x mod 4 * 16)) "==")
  | String a (String b EmptyString) =>
      let x := N_of_ascii a in
      let y := N_of_ascii b in
      String (sextet (x / 4))
        (String (sextet (x mod 4 * 16 + y / 16))
           (String (sextet (y mod 16 * 4)) "="))
  | String a (String b (String c r)) =>
      let x := N_of_ascii a in
      let y := N_of_ascii b in
      let z := N_of_ascii c in
      String (sextet (x / 4))
        (String (sextet (x mod 4 * 16 + y / 16))
           (String (sextet (y mod 16 * 4 + z / 64))
              (String (sextet (z mod 64)) (btoa r))))
  end.

End JSString.

(* ================================================================== *)
(** * Numbers *)

Module JSNumber.

Definition isDigit (c : ascii) : bool :=
  let n := N_of_ascii c in (48 <=? n)%N && (n <=? 57)%N.

Definition digitVal (c : ascii) : Z := Z.of_N (N_of_ascii c) - 48.

(** White space that [parseFloat] skips (the ASCII part of it). *)
Definition isWhiteSpace (c : ascii) : bool :=
  let n := N_of_ascii c in ((9 <=? n)%N && (n <=? 13)%N) || (n =? 32)%N.

Fixpoint trimStart (s : string) : string :=
  match s with
  | String c r => if isWhiteSpace c then trimStart r else s
  | EmptyString => s
  end.

(** The longest run of decimal digits at the head of [s]: its value in base
    ten on top of [acc], how many digits were read on top of [n], and the
    rest of the string. *)
Fixpoint takeDigits (s : string) (acc : Z) (n : Z) : Z * Z * string :=
  match s with
  | String c r =>
      if isDigit c then takeDigits r (10 * acc + digitVal c) (n + 1)
      else (acc, n, s)
  | EmptyString => (acc, n, s)
  end.

(** The binary64 value nearest to [n / d] (ties to even), for [0 <= n] and
    [0 < d].  The quotient is taken with at least 56 bits and one more bit
    that records a remainder, so the final rounding sees the exact value. *)
Definition ratioToFloat (neg : bool) (n d : Z) : float :=
  if (n =? 0)%Z then (if neg then (-0)%float else 0%float) else
  let k := Z.max 0 (56 + Z.log2_up d - Z.log2 n) in
  let n' := (n * 2 ^ k)%Z in
  let q := (n' / d)%Z in
  let sticky := if (n' mod d =? 0)%Z then 0%Z else 1%Z in
  let m := (2 * q + sticky)%Z in
  SF2Prim (binary_normalize prec emax (if neg then - m else m) (- k - 1) false).

(** The binary64 value nearest to [m * 10^e]. *)
Definition decimalToFloat (neg : bool) (m e : Z) : float :=
  if (0 <=? e)%Z then ratioToFloat neg (m * 10 ^ e) 1
  else ratioToFloat neg m (10 ^ (- e)).

Definition parseSign (s : string) : bool * string :=
  match s with
  | String "-" r => (true, r)
  | String "+" r => (false, r)
  | _ => (false, s)
  end.

(** An exponent part counts only when a digit follows the [e]. *)
Definition parseExponent (s : string) : Z :=
  match s with
  | String c r =>
      if (c =? "e")%char || (c =? "E")%char then
        let '(neg, r1) := parseSign r in
        let '(v, n, _) := takeDigits r1 0 0 in
        if (n =? 0)%Z then 0%Z else if neg then (- v)%Z else v
      else 0%Z
  | EmptyString => 0%Z
  end.

(** [parseFloat] of a string: the longest prefix, after leading white space,
    that is a decimal literal; [NaN] when there is none. *)
Definition parseFloatString (s : string) : float :=
  let '(neg, s1) := parseSign (trimStart s) in
  if String.prefix "Infinity" s1 then (if neg then neg_infinity else infinity) else
  let '(iv, inum, r1) := takeDigits s1 0 0 in
  let '(fv, fnum, r2) :=
    match r1 with
    | String "." r => takeDigits r iv 0
    | _ => (iv, 0%Z, r1)
    end in
  if (inum + fnum =? 0)%Z then nan
  else decimalToFloat neg fv (parseExponent r2 - fnum).

Definition digitsOfZ (z : Z) : string :=
  NilZero.string_of_uint (N.to_uint (Z.to_N z)).

Fixpoint zeros (n : nat) : string :=
  match n with
  | O => ""
  | S n' => String "0" (zeros n')
  end.

(** The exact value of a finite float, sign apart, as a fraction. *)
Definition fractionOf (x : float) : Z * Z :=
  match Prim2SF x with
  | S754_finite _ m e =>
      if (0 <=? e)%Z then (Z.pos m * 2 ^ e, 1)%Z else (Z.pos m, 2 ^ (- e))%Z
  | _ => (0, 1)%Z
  end.

(** [x < 10^n] for [x = num / den]. *)
Definition belowPow10 (num den n : Z) : bool :=
  if (0 <=? n)%Z then (num <? 10 ^ n * den)%Z else (num * 10 ^ (- n) <? den)%Z.

Fixpoint raiseExp (fuel : nat) (num den n : Z) : Z :=
  match fuel with
  | O => n
  | S f => if belowPow10 num den n then n else raiseExp f num den (n + 1)
  end.

Fixpoint lowerExp (fuel : nat) (num den n : Z) : Z :=
  match fuel with
  | O => n
  | S f => if belowPow10 num den (n - 1) then lowerExp f num den (n - 1) else n
  end.

(** The [n] with [10^(n-1) <= num/den < 10^n], from an estimate by binary
    logarithms that is off by a few units at most. *)
Definition decimalExponent (num den : Z) : Z :=
  let est := ((Z.log2 num - Z.log2 den) * 1233 / 4096)%Z in
  lowerExp 8 num den (raiseExp 8 num den est).

(** [floor (num / den / 10^p)]. *)
Definition scaledFloor (num den p : Z) : Z :=
  if (0 <=? p)%Z then (num / (den * 10 ^ p))%Z else (num * 10 ^ (- p) / den)%Z.

(** [num/den] against the midpoint of [lo * 10^p] and [(lo + 1) * 10^p]. *)
Definition nearerLow (num den p lo : Z) : comparison :=
  if (0 <=? p)%Z then Z.compare (2 * num) ((2 * lo + 1) * 10 ^ p * den)
  else Z.compare (2 * num * 10 ^ (- p)) ((2 * lo + 1) * den).

Definition roundTrips (x : float) (c p : Z) : bool :=
  PrimFloat.eqb (decimalToFloat false c p) x.

(** The digits [s], their number [k] and the exponent [n] of
    Number::toString: [k] as small as possible with [s * 10^(n-k)] reading
    back as [x], and [s] the nearest such. *)
Fixpoint shortestDigits (fuel : nat) (x : float) (num den n k : Z) : Z * Z * Z :=
  let p := (n - k)%Z in
  let lo := scaledFloor num den p in
  let hi := (lo + 1)%Z in
  let okLo := roundTrips x lo p in
  let okHi := roundTrips x hi p in
  let up := if (hi <? 10 ^ k)%Z then (hi, k, n) else (10 ^ (k - 1), k, n + 1)%Z in
  match fuel with
  | O => (lo, k, n)
  | S f =>
      if okLo && okHi then
        match nearerLow num den p lo with
        | Lt => (lo, k, n)
        | Gt => up
        | Eq => if Z.even lo then (lo, k, n) else up
        end
      else if okLo then (lo, k, n)
      else if okHi then up
      else shortestDigits f x num den n (k + 1)
  end.

Definition exponentPart (e : Z) : string :=
  "e" ++ (if (0 <? e)%Z then "+" else "-") ++ digitsOfZ (Z.abs e).

Definition positiveToString (x : float) : string :=
  let '(num, den) := fractionOf x in
  let '(s, k, n) := shortestDigits 17 x num den (decimalExponent num den) 1 in
  let ds := digitsOfZ s in
  if ((k <=? n) && (n <=? 21))%Z then ds ++ zeros (Z.to_nat (n - k))
  else if ((0 <? n) && (n <=? 21))%Z then
    substring 0 (Z.to_nat n) ds ++ "." ++ substring (Z.to_nat n) (Z.to_nat (k - n)) ds
  else if ((-6 <? n) && (n <=? 0))%Z then "0." ++ zeros (Z.to_nat (- n)) ++ ds
  else if (k =? 1)%Z then ds ++ exponentPart (n - 1)
  else substring 0 1 ds ++ "." ++ substring 1 (Z.to_nat (k - 1)) ds
       ++ exponentPart (n - 1).

(** [Number.prototype.toString] in base ten. *)
Definition numberToString (x : float) : string :=
  if PrimFloat.is_nan x then "NaN"
  else if PrimFloat.eqb x 0 then "0"
  else if PrimFloat.ltb x 0 then
    (if PrimFloat.is_infinity x then "-Infinity"
     else "-" ++ positiveToString (PrimFloat.opp x))
  else if PrimFloat.is_infinity x then "Infinity"
  else positiveToString x.

(** The digits of [toFixed(2)] for [0 <= x < 10^21]: the integer nearest to
    [100 x], the larger one on a tie, with the point before its last two
    digits. *)
Definition toFixedDigits (x : float) : string :=
  let '(num, den) := fractionOf x in
  let n := ((2 * 100 * num + den) / (2 * den))%Z in
  let m := digitsOfZ n in
  let m := zeros (3 - String.length m) ++ m in
  let k := String.length m in
  substring 0 (k - 2) m ++ "." ++ substring (k - 2) 2 m.

(** [x.toFixed(2)]. *)
Definition toFixed2 (x : float) : string :=
  if PrimFloat.is_nan x then "NaN"
  else if PrimFloat.is_infinity x then numberToString x
  else
    let neg := PrimFloat.ltb x 0 in
    let ax := if neg then PrimFloat.opp x else x in
    (if neg then "-" else "")
    ++ (if PrimFloat.leb 1e21 ax then numberToString ax else toFixedDigits ax).

(** [Math.max] of two numbers. *)
Definition mathMax (a b : float) : float :=
  if PrimFloat.is_nan a || PrimFloat.is_nan b then nan
  else if PrimFloat.ltb a b then b
  else if PrimFloat.ltb b a then a
  else match PrimFloat.classify a with
       | FloatClass.NZero => b
       | _ => a
       end.

End JSNumber.

(* ================================================================== *)
(** * Values of the numeric fields *)

(** What a numeric property ([quantity], [rate], [total], [amount]) of the
    record can hold when it reaches the composer: nothing, a number, or a
    string (form input and JSON both occur). *)
Inductive value : Type :=
| Undefined
| Null
| Num (x : float)
| Str (s : string).

(** ToBoolean. *)
Definition toBoolean (v : value) : bool :=
  match v with
  | Undefined | Null => false
  | Num x => negb (PrimFloat.is_nan x || PrimFloat.eqb x 0)
  | Str s => negb (s =? "")
  end.

(** [v || 0]. *)
Definition orZero (v : value) : value :=
  if toBoolean v then v else Num 0.

(** ToString of a value, as [parseFloat] applies it to its argument. *)
Definition toString (v : value) : string :=
  match v with
  | Undefined => "undefined"
  | Null => "null"
  | Num x => JSNumber.numberToString x
  | Str s => s
  end.

Definition parseFloat (v : value) : float :=
  JSNumber.parseFloatString (toString v).

(* ================================================================== *)
(** * The data the composer receives *)

Record LineItem : Type := {
  description : option string;
  quantity : value;
  rate : value;
  amount : value
}.

Record Invoice : Type := {
  invoiceNumber : option string;
  issueDate : option string;
  dueDate : option string;
  status : option string;
  invoiceTitle : option string;
  invoiceDescription : option string;
  total : value;
  lineItems : option (list LineItem)
}.

Record BusinessInfo : Type := {
  businessName : option string;
  businessAddress : option string;
  businessPhone : option string;
  businessEmail : option string
}.

Record ClientInfo : Type := {
  name : option string;
  email : option string;
  address : option string
}.

(** The first argument of the entry points.  It is either a wrapper, whose
    property [invoice] holds the record, or the record itself; in both cases
    it may carry [user] and [client].  [own] is the object read as a record:
    its properties [invoiceNumber], [total], [lineItems] and so on. *)
Module Data.

Record t : Type := {
  invoice : option Invoice;
  user : option BusinessInfo;
  client : option ClientInfo;
  own : Invoice
}.

End Data.

Definition InvoiceData : Type := Data.t.

(** The object literal [{}]: every property is [undefined]. *)
Definition emptyBusinessInfo : BusinessInfo :=
  {| businessName := None; businessAddress := None;
     businessPhone := None; businessEmail := None |}.

Definition emptyClientInfo : ClientInfo :=
  {| name := None; email := None; address := None |}.

(** [a || b] where [a] is an object or [undefined]. *)
Definition orObject {A : Type} (a : option A) (b : A) : A :=
  match a with
  | Some x => x
  | None => b
  end.

(** [a || b || {}]. *)
Definition orObjects {A : Type} (a b : option A) (empty : A) : A :=
  match a with
  | Some x => x
  | None => orObject b empty
  end.

(* ================================================================== *)
(** * The document *)

Definition color : Type := (Z * Z * Z)%type.

Definition primaryColor : color := (102, 126, 234)%Z.
Definition darkGray : color := (51, 51, 51)%Z.
Definition lightGray : color := (102, 102, 102)%Z.

(** The option [{ align: ... }] of [doc.text]. *)
Inductive alignment : Type :=
| AlignDefault
| AlignRight
| AlignCenter.

(** One call on the jsPDF object.  The document under construction is the
    sequence of the calls made on it so far.  The options of [autoTable]
    other than [startY], [head] and [body] are the same constants in both
    calls of the source and are left out. *)
Inductive call : Type :=
| setFontSize (size : float)
| setTextColor (c : color)
| setFont (face style : string)
| text (s : string) (x y : float) (align : alignment)
| setDrawColor (c : color)
| setLineWidth (w : float)
| line (x1 y1 x2 y2 : float)
| autoTable (startY : float) (head : list string) (body : list (list string)).

Definition document : Type := list call.

(** What [new jsPDF()] draws for the object it creates (line 127): a file
    identifier, drawn at random, and the time of creation.  jsPDF writes
    both into the file; no call of the composer sets or reads them. *)
Record Instance : Type := {
  fileId : string;
  creationDate : string
}.

(** What the composer asks of jsPDF and of the host. *)
Class Host : Type := {
  (** [doc.splitTextToSize(s, width)]: the lines of [s] at the current font. *)
  splitTextToSize : document -> string -> float -> list string;
  (** [doc.lastAutoTable.finalY]: where the last table ended. *)
  lastAutoTableFinalY : document -> float;
  (** [doc.internal.pageSize.height]. *)
  pageHeight : float;
  (** [new Date(d).toLocaleDateString()]. *)
  toLocaleDateString : string -> string;
  (** The PDF file of a jsPDF object, as a binary string: what was drawn
      for the object and the calls made on it. *)
  output : Instance -> document -> string
}.

(** The layout state: the document and the cursor [yPos]. *)
Record layout : Type := {
  doc : document;
  yPos : float
}.

Definition step : Type := layout -> layout.

Definition emit (c : call) : step :=
  fun st => {| doc := (doc st ++ [c])%list; yPos := yPos st |}.

(** A call that reads the cursor, as [doc.text(s, x, yPos)] does. *)
Definition emitAt (c : float -> call) : step :=
  fun st => emit (c (yPos st)) st.

(** [yPos += d]. *)
Definition advance (d : float) : step :=
  fun st => {| doc := doc st; yPos := yPos st + d |}.

(** [yPos = f(yPos)], where [f] may read the document. *)
Definition setY (f : layout -> float) : step :=
  fun st => {| doc := doc st; yPos := f st |}.

Definition seq (f g : step) : step := fun st => g (f st).

Definition when (b : bool) (f : step) : step := fun st => if b then f st else st.

Definition forEach {A : Type} (l : list A) (f : A -> step) : step :=
  fun st => fold_left (fun s a => f a s) l st.

Declare Scope step_scope.
Delimit Scope step_scope with step.
Bind Scope step_scope with step.
Notation "f ;; g" := (seq f g) (at level 61, right associativity) : step_scope.

Definition skip : step := fun st => st.

(** [if (o) { pre; doc.text(o, 20, yPos); yPos += 5 }] for a text property
    [o]. *)
Definition optionalLine (o : option string) (pre : step) : step :=
  when (JSString.truthy o)
    (pre ;; emitAt (fun y => text (JSString.orElse o "") 20 y AlignDefault) ;;
     advance 5)%step.

(* ================================================================== *)
(** * createPDFDocument *)

(** Lines 246-247: the test that sends an item to [services]. *)
Definition isService (item : LineItem) : bool :=
  let desc := JSString.toLowerCase (JSString.orElse (description item) "") in
  JSString.includes desc "labor" || JSString.includes desc "hour"
  || JSString.includes desc "service" || JSString.includes desc "time".

(** Lines 240-253: [services] and [materials], filled by [push] in one pass
    over [invoice.lineItems] when that is a non-empty array. *)
Definition separate (items : option (list LineItem))
  : list LineItem * list LineItem :=
  match items with
  | Some l =>
      if (0 <? List.length l)%nat then
        fold_left
          (fun acc item =>
             if isService item then ((fst acc ++ [item])%list, snd acc)
             else (fst acc, (snd acc ++ [item])%list))
          l ([], [])
      else ([], [])
  | None => ([], [])
  end.

(** Lines 267-276 (and 323-332): the row of one item and its [itemTotal]. *)
Definition rowOf (item : LineItem) : list string * float :=
  let quantity := parseFloat (orZero (quantity item)) in
  let rate := parseFloat (orZero (rate item)) in
  let itemTotal := (quantity * rate)%float in
  ([ JSString.orElse (description item) "";
     JSNumber.numberToString quantity;
     "$" ++ JSNumber.toFixed2 rate;
     "$" ++ JSNumber.toFixed2 itemTotal ],
   itemTotal).

(** Lines 266-277: [items.map(...)], whose callback also adds each
    [itemTotal] to the section's running subtotal. *)
Definition mapRows (items : list LineItem) (sectionSubtotal : float)
  : list (list string) * float :=
  fold_left
    (fun acc item =>
       ((fst acc ++ [fst (rowOf item)])%list, (snd acc + snd (rowOf item))%float))
    items ([], sectionSubtotal).

Section Composer.

Context {host : Host}.

(** Lines 138-160. *)
Definition headerBlock (businessInfo : BusinessInfo) : step :=
  (emit (setFontSize 24) ;;
   emit (setTextColor darkGray) ;;
   emit (setFont "helvetica" "bold") ;;
   emit (text (JSString.orElse (businessName businessInfo) "Invoice") 20 25 AlignDefault) ;;
   emit (setFontSize 10) ;;
   emit (setFont "helvetica" "normal") ;;
   emit (setTextColor lightGray) ;;
   setY (fun _ => 32%float) ;;
   optionalLine (businessAddress businessInfo) skip ;;
   optionalLine (businessPhone businessInfo) skip ;;
   optionalLine (businessEmail businessInfo) skip)%step.

(** Lines 162-182. *)
Definition metadataBlock (inv : Invoice) : step :=
  (emit (setFontSize 10) ;;
   emit (setTextColor darkGray) ;;
   emit (setFont "helvetica" "bold") ;;
   emit (text "INVOICE" 150 25 AlignDefault) ;;
   emit (setFont "helvetica" "normal") ;;
   emit (setFontSize 9) ;;
   emit (text ("Invoice #: " ++ JSString.orElse (invoiceNumber inv) "N/A") 150 32 AlignDefault) ;;
   when (JSString.truthy (issueDate inv))
     (emit (text ("Issue Date: " ++ toLocaleDateString (JSString.orElse (issueDate inv) ""))
              150 37 AlignDefault)) ;;
   when (JSString.truthy (dueDate inv))
     (emit (text ("Due Date: " ++ toLocaleDateString (JSString.orElse (dueDate inv) ""))
              150 42 AlignDefault)) ;;
   emit (setTextColor primaryColor) ;;
   emit (setFont "helvetica" "bold") ;;
   emit (text ("Status: " ++ JSString.toUpperCase (JSString.orElse (status inv) "draft"))
           150 47 AlignDefault))%step.

(** Lines 184-208. *)
Definition billToBlock (clientInfo : ClientInfo) : step :=
  (setY (fun st => JSNumber.mathMax (yPos st + 10) 55) ;;
   emit (setFontSize 10) ;;
   emit (setTextColor darkGray) ;;
   emit (setFont "helvetica" "bold") ;;
   emitAt (fun y => text "BILL TO:" 20 y AlignDefault) ;;
   emit (setFont "helvetica" "normal") ;;
   emit (setFontSize 11) ;;
   advance 6 ;;
   optionalLine (name clientInfo) skip ;;
   optionalLine (email clientInfo)
     (emit (setFontSize 9) ;; emit (setTextColor lightGray)) ;;
   optionalLine (address clientInfo) skip)%step.

(** Lines 210-237. *)
Definition jobBlock (inv : Invoice) : step :=
  (when (JSString.truthy (invoiceTitle inv) || JSString.truthy (invoiceDescription inv))
     (advance 5 ;;
      emit (setFontSize 9) ;;
      emit (setTextColor lightGray) ;;
      emit (setFont "helvetica" "bold") ;;
      when (JSString.truthy (invoiceTitle inv))
        (emitAt (fun y => text "Job/Project:" 20 y AlignDefault) ;;
         advance 5 ;;
         emit (setFontSize 10) ;;
         emit (setTextColor darkGray) ;;
         emit (setFont "helvetica" "normal") ;;
         emitAt (fun y => text (JSString.orElse (invoiceTitle inv) "") 20 y AlignDefault) ;;
         advance 5) ;;
      when (JSString.truthy (invoiceDescription inv))
        (emit (setFontSize 9) ;;
         emit (setTextColor lightGray) ;;
         (fun st =>
            forEach
              (splitTextToSize (doc st) (JSString.orElse (invoiceDescription inv) "") 150)
              (fun l => emitAt (fun y => text l 20 y AlignDefault) ;; advance 5)
              st))) ;;
   advance 10)%step.

(** Lines 260-264 and 279-311 for [services], 316-320 and 335-367 for
    [materials]: the heading, the table of [rows] and the subtotal line.
    The two blocks differ in the heading, in the name of the third column
    and in the label of the subtotal. *)
Definition sectionBlock (heading column label : string)
    (rows : list (list string)) (sectionSubtotal : float) : step :=
  (emit (setFontSize 12) ;;
   emit (setTextColor primaryColor) ;;
   emit (setFont "helvetica" "bold") ;;
   emitAt (fun y => text heading 20 y AlignDefault) ;;
   advance 2 ;;
   emitAt (fun y => autoTable y ["Description"; "Quantity"; column; "Amount"] rows) ;;
   setY (fun st => (lastAutoTableFinalY (doc st) + 10)%float) ;;
   emit (setFontSize 10) ;;
   emit (setTextColor darkGray) ;;
   emit (setFont "helvetica" "bold") ;;
   emitAt (fun y => text label 135 y AlignDefault) ;;
   emitAt (fun y => text ("$" ++ JSNumber.toFixed2 sectionSubtotal) 175 y AlignRight) ;;
   advance 12)%step.

(** Lines 259-312 and 315-368: [if (items.length > 0) { ... }].  The
    result is the layout and the section's subtotal, which stays as it
    was when the section has no items. *)
Definition tableSection (heading column label : string)
    (items : list LineItem) (sectionSubtotal : float) (st : layout)
  : layout * float :=
  if (0 <? List.length items)%nat then
    let rows := mapRows items sectionSubtotal in
    (sectionBlock heading column label (fst rows) (snd rows) st, snd rows)
  else (st, sectionSubtotal).

(** Lines 377-404. *)
Definition totalsBlock (subtotal taxAmount total : float) : step :=
  (advance 15 ;;
   emit (setDrawColor (200, 200, 200)%Z) ;;
   emitAt (fun y => line 120 y 190 y) ;;
   advance 10 ;;
   emit (setFontSize 10) ;;
   emit (setTextColor darkGray) ;;
   emit (setFont "helvetica" "normal") ;;
   emitAt (fun y => text "Subtotal:" 135 y AlignDefault) ;;
   emitAt (fun y => text ("$" ++ JSNumber.toFixed2 subtotal) 175 y AlignRight) ;;
   when (0 <? taxAmount)%float
     (advance 8 ;;
      emitAt (fun y => text "Tax:" 135 y AlignDefault) ;;
      emitAt (fun y => text ("$" ++ JSNumber.toFixed2 taxAmount) 175 y AlignRight)) ;;
   advance 10 ;;
   emit (setDrawColor primaryColor) ;;
   emit (setLineWidth 0.5) ;;
   emitAt (fun y => line 120 (y - 2) 190 (y - 2)) ;;
   emit (setFontSize 14) ;;
   emit (setFont "helvetica" "bold") ;;
   emit (setTextColor primaryColor) ;;
   emitAt (fun y => text "TOTAL:" 135 (y + 3) AlignDefault) ;;
   emitAt (fun y => text ("$" ++ JSNumber.toFixed2 total) 175 (y + 3) AlignRight))%step.

(** Lines 406-416. *)
Definition footerBlock (businessInfo : BusinessInfo) : step :=
  (emit (setFontSize 9) ;;
   emit (setTextColor lightGray) ;;
   emit (setFont "helvetica" "italic") ;;
   emit (text "Thank you for your business!" 105 (pageHeight - 20) AlignCenter) ;;
   when (JSString.truthy (businessName businessInfo))
     (emit (setFont "helvetica" "normal") ;;
      emit (text ("Generated by " ++ JSString.orElse (businessName businessInfo) "")
              105 (pageHeight - 15) AlignCenter)))%step.

End Composer.

(** The local variables of [createPDFDocument] when it returns. *)
Module Locals.

Record t : Type := {
  invoice : Invoice;
  businessInfo : BusinessInfo;
  clientInfo : ClientInfo;
  services : list LineItem;
  materials : list LineItem;
  servicesSubtotal : float;
  materialsSubtotal : float;
  subtotal : float;
  invoiceTotal : float;
  taxAmount : float;
  total : float;
  doc : document
}.

End Locals.

(** A file handed to the browser by [doc.save]. *)
Record download : Type := {
  fileName : string;
  fileBytes : string
}.

Section EntryPoints.

Context {host : Host}.

(** Lines 126-419, with every local variable kept. *)
Definition runCreatePDFDocument (invoiceData : InvoiceData)
    (user : option BusinessInfo) (client : option ClientInfo) : Locals.t :=
  let invoice := orObject (Data.invoice invoiceData) (Data.own invoiceData) in
  let businessInfo := orObjects (Data.user invoiceData) user emptyBusinessInfo in
  let clientInfo := orObjects (Data.client invoiceData) client emptyClientInfo in
  let st := (headerBlock businessInfo ;;
             metadataBlock invoice ;;
             billToBlock clientInfo ;;
             jobBlock invoice)%step {| doc := []; yPos := 0 |} in
  let services := fst (separate (lineItems invoice)) in
  let materials := snd (separate (lineItems invoice)) in
  let s := tableSection "SERVICES" "Rate" "Services Subtotal:" services 0 st in
  let servicesSubtotal := snd s in
  let m := tableSection "MATERIALS" "Price" "Materials Subtotal:" materials 0 (fst s) in
  let materialsSubtotal := snd m in
  let subtotal := (servicesSubtotal + materialsSubtotal)%float in
  let invoiceTotal := parseFloat (orZero (total invoice)) in
  let taxAmount :=
    if (0 <? invoiceTotal)%float && negb (invoiceTotal =? subtotal)%float
    then (invoiceTotal - subtotal)%float
    else (subtotal * 0.10)%float in
  let total :=
    if (0 <? invoiceTotal)%float then invoiceTotal
    else (subtotal + taxAmount)%float in
  let st := (totalsBlock subtotal taxAmount total ;;
             footerBlock businessInfo)%step (fst m) in
  {| Locals.invoice := invoice;
     Locals.businessInfo := businessInfo;
     Locals.clientInfo := clientInfo;
     Locals.services := services;
     Locals.materials := materials;
     Locals.servicesSubtotal := servicesSubtotal;
     Locals.materialsSubtotal := materialsSubtotal;
     Locals.subtotal := subtotal;
     Locals.invoiceTotal := invoiceTotal;
     Locals.taxAmount := taxAmount;
     Locals.total := total;
     Locals.doc := doc st |}.

(** [createPDFDocument] returns the document: the calls made on the jsPDF
    object it created.  What [new jsPDF()] drew for that object travels
    beside it, as the argument [pdf] of the entry points. *)
Definition createPDFDocument (invoiceData : InvoiceData)
    (user : option BusinessInfo) (client : option ClientInfo) : document :=
  Locals.doc (runCreatePDFDocument invoiceData user client).

(** [doc.save(name)]: the PDF file of the document under that name. *)
Definition save (pdf : Instance) (d : document) (name : string) : download :=
  {| fileName := name; fileBytes := output pdf d |}.

(** [doc.output('datauristring')].  Line 432 of the source gives the header
    as [data:application/pdf;base64,]; the PDF follows it in base64. *)
Definition outputDataUriString (pdf : Instance) (d : document) : string :=
  "data:application/pdf;base64," ++ JSString.btoa (output pdf d).

(** Lines 422-427.  [pdf] is what [new jsPDF()] draws in this call of
    [createPDFDocument]: every call of an entry point creates a jsPDF
    object of its own. *)
Definition generatePDF (pdf : Instance) (invoiceData : InvoiceData)
    (user : option BusinessInfo) (client : option ClientInfo) : download :=
  let doc := createPDFDocument invoiceData user client in
  let invoice := orObject (Data.invoice invoiceData) (Data.own invoiceData) in
  let invoiceNumber := JSString.orElse (invoiceNumber invoice) "Draft" in
  save pdf doc ("Invoice-" ++ invoiceNumber ++ ".pdf").

(** Lines 430-435.  Element 1 of an array that has none is [undefined],
    which is [None] here. *)
Definition generatePDFBase64 (pdf : Instance) (invoiceData : InvoiceData)
    (user : option BusinessInfo) (client : option ClientInfo) : option string :=
  let doc := createPDFDocument invoiceData user client in
  let pdfBase64 := nth_error (JSString.split "," (outputDataUriString pdf doc)) 1 in
  pdfBase64.

End EntryPoints.

(* ================================================================== *)
(** * A host to run the composer on, and sample records *)

(** A host that wraps nothing, prints dates as they are stored, ends a table
    20 units below its start and writes a document out as the texts it
    holds, one per line, followed by the creation date and the file
    identifier of the jsPDF object, which jsPDF writes in the information
    dictionary and in the trailer of the file. *)
Definition startOfLastTable (d : document) : float :=
  fold_left (fun y c => match c with autoTable startY _ _ => startY | _ => y end)
    d 0%float.

Definition textsOf (d : document) : string :=
  fold_left
    (fun acc c =>
       match c with
       | text s _ _ _ => acc ++ s ++ String (ascii_of_N 10) ""
       | _ => acc
       end)
    d "".

Definition plainHost : Host := {|
  splitTextToSize := fun _ s _ => [s];
  lastAutoTableFinalY := fun d => (startOfLastTable d + 20)%float;
  pageHeight := 297%float;
  toLocaleDateString := fun s => s;
  output := fun pdf d =>
    textsOf d
    ++ "/CreationDate (" ++ creationDate pdf ++ ")" ++ String (ascii_of_N 10) ""
    ++ "/ID [ <" ++ fileId pdf ++ "> <" ++ fileId pdf ++ "> ]"
|}.

(** Two jsPDF objects, as two calls of [new jsPDF()] make them: created in
    the same second, each with a file identifier of its own. *)
Definition firstObject : Instance :=
  {| fileId := "5A0D0F6B2C3E4F708192A3B4C5D6E7F8";
     creationDate := "D:20240101120000" |}.

Definition secondObject : Instance :=
  {| fileId := "C41E7A9055D24B6E8F30A1B2C3D4E5F6";
     creationDate := "D:20240101120000" |}.

Definition item (d : string) (q r : value) : LineItem :=
  {| description := Some d; quantity := q; rate := r; amount := Undefined |}.

Definition record (t : value) (items : option (list LineItem)) : Invoice :=
  {| invoiceNumber := None; issueDate := None; dueDate := None;
     status := None; invoiceTitle := None; invoiceDescription := None;
     total := t; lineItems := items |}.

(** A record passed as it is, with no [invoice], [user] or [client] in it. *)
Definition bare (r : Invoice) : InvoiceData :=
  {| Data.invoice := None; Data.user := None; Data.client := None; Data.own := r |}.

(** Scenario A of the specification: no items, no total. *)
Definition scenarioA : InvoiceData := bare (record Undefined (Some [])).

(** Scenario B: one item, two hours of labour at 50. *)
Definition scenarioB : InvoiceData :=
  bare (record Undefined (Some [item "2 hours labor" (Num 2) (Num 50)])).

(** Scenario C: a total of 95 on items that add up to 100. *)
Definition scenarioC : InvoiceData :=
  bare (record (Num 95) (Some [item "Copper pipe" (Num 4) (Num 25)])).

(** A credit note: the record's total is negative. *)
Definition creditNote : InvoiceData :=
  bare (record (Num (-5)) (Some [item "Copper pipe" (Num 4) (Num 25)])).

(** A quantity typed as text that is no number. *)
Definition malformed : InvoiceData :=
  bare (record Undefined (Some [item "Copper pipe" (Str "abc") (Num 25)])).


(** A subtotal so small that a tenth of it rounds to zero: the least
    positive binary64 number, [5e-324] in the source's notation. *)
Definition leastPositive : float := 0x1p-1074%float.


(* ================================================================== *)
(** * Reading a document *)

(** A label of the totals block: a text at column 135. *)
Definition isLabel (lbl : string) (c : call) : bool :=
  match c with
  | text s x _ _ => (s =? lbl)%string && (x =? 135)%float
  | _ => false
  end.

(** The text printed next to the first label [lbl]. *)
Fixpoint printedAfter (lbl : string) (d : document) : option string :=
  match d with
  | [] => None
  | c :: rest =>
      if isLabel lbl c then
        match rest with
        | text v _ _ _ :: _ => Some v
        | _ => None
        end
      else printedAfter lbl rest
  end.

Definition printedSubtotal : document -> option string := printedAfter "Subtotal:".
Definition printedTax : document -> option string := printedAfter "Tax:".
Definition printedTotal : document -> option string := printedAfter "TOTAL:".

Definition taxLineRendered (d : document) : bool := existsb (isLabel "Tax:") d.

Definition isTable (c : call) : bool :=
  match c with
  | autoTable _ _ _ => true
  | _ => false
  end.

(** The tables of a document, in order. *)
Definition tables (d : document) : list call := filter isTable d.

(** The body of a table. *)
Definition bodyOf (c : call) : list (list string) :=
  match c with
  | autoTable _ _ body => body
  | _ => []
  end.

(* ================================================================== *)
(** * The specification's vocabulary *)

(** [invoice.lineItems] as a sequence: none when the property is absent. *)
Definition itemsOf (inv : Invoice) : list LineItem :=
  match lineItems inv with
  | Some l => l
  | None => []
  end.

Definition keywords : list string := ["labor"; "hour"; "service"; "time"].

(** [k] is a substring of [s]. *)
Definition occursIn (k s : string) : Prop :=
  exists pre post, s = pre ++ k ++ post.

(** The keyword rule of the specification. *)
Definition Service (it : LineItem) : Prop :=
  exists k, In k keywords /\
            occursIn k (JSString.toLowerCase (JSString.orElse (description it) "")).

(** quantity times rate. *)
Definition itemAmount (it : LineItem) : float :=
  (parseFloat (orZero (quantity it)) * parseFloat (orZero (rate it)))%float.

(** The sum of a sequence of amounts, added in order from 0. *)
Definition sum (l : list float) : float :=
  fold_left (fun acc a => (acc + a)%float) l 0%float.


(** A property that is there: neither [undefined] nor [null]. *)
Definition present (v : value) : bool :=
  match v with
  | Undefined | Null => false
  | _ => true
  end.

(** The record's total as a number: [parseFloat(invoice.total || 0)]. *)
Definition totalOf (inv : Invoice) : float := parseFloat (orZero (total inv)).

(** The record carries a total that is present and nonzero. *)
Definition authoritative (inv : Invoice) : bool :=
  present (total inv) && negb (totalOf inv =? 0)%float.

(** The numeric string [s] is malformed: it does not parse as a number. *)
Definition malformedNumber (s : string) : Prop :=
  JSNumber.parseFloatString s = nan.

(** A dollar amount as the composer prints it. *)
Definition dollars (x : float) : string := "$" ++ JSNumber.toFixed2 x.

(* ================================================================== *)
(** * What a step adds to the document *)

(** Neither a text at column 135, where the labels of the totals stand, nor
    a table. *)
Definition quiet (c : call) : bool :=
  match c with
  | text _ x _ _ => negb (x =? 135)%float
  | autoTable _ _ _ => false
  | _ => true
  end.

Definition isTotalsLabel (c : call) : bool :=
  isLabel "Subtotal:" c || isLabel "Tax:" c || isLabel "TOTAL:" c.

Definition notTotalsLabel (c : call) : bool := negb (isTotalsLabel c).

(** [f] only appends calls, and each of them satisfies [P]. *)
Definition adds (P : call -> bool) (f : step) : Prop :=
  forall st, exists l, doc (f st) = (doc st ++ l)%list /\ forallb P l = true.


(** The calls of the totals block when the cursor is at [y0]. *)
Definition totalsCalls (subtotal taxAmount total y0 : float) : list call :=
  let y1 := (y0 + 15)%float in
  let y2 := (y1 + 10)%float in
  let y3 := ((if (0 <? taxAmount)%float then y2 + 8 else y2) + 10)%float in
  ([ setDrawColor (200, 200, 200)%Z;
     line 120 y1 190 y1;
     setFontSize 10;
     setTextColor darkGray;
     setFont "helvetica" "normal";
     text "Subtotal:" 135 y2 AlignDefault;
     text (dollars subtotal) 175 y2 AlignRight ]
   ++ (if (0 <? taxAmount)%float
       then [ text "Tax:" 135 (y2 + 8) AlignDefault;
              text (dollars taxAmount) 175 (y2 + 8) AlignRight ]
       else [])
   ++ [ setDrawColor primaryColor;
        setLineWidth 0.5;
        line 120 (y3 - 2) 190 (y3 - 2);
        setFontSize 14;
        setFont "helvetica" "bold";
        setTextColor primaryColor;
        text "TOTAL:" 135 (y3 + 3) AlignDefault;
        text (dollars total) 175 (y3 + 3) AlignRight ])%list.

(* ================================================================== *)
(** * The specification's wording of the totals *)

(** The tax as the specification words it: total minus subtotal when the
    record's total is present, nonzero and differs from the subtotal, and a
    tenth of the subtotal otherwise. *)
Definition specifiedTax (inv : Invoice) (subtotal : float) : float :=
  if authoritative inv && negb (totalOf inv =? subtotal)%float
  then (totalOf inv - subtotal)%float
  else (subtotal * 0.10)%float.

(** The final total as the specification words it: the record's total when
    present and nonzero, subtotal plus tax otherwise. *)
Definition specifiedTotal (inv : Invoice) (subtotal taxAmount : float) : float :=
  if authoritative inv then totalOf inv else (subtotal + taxAmount)%float.

(** The bodies of the tables that a section with these items puts in the
    document: one table of rows when there are items, none otherwise. *)
Definition tableBodies (items : list LineItem) : list (list (list string)) :=
  match items with
  | [] => []
  | _ :: _ => [map (fun it => fst (rowOf it)) items]
  end.



(** Every character of [s] satisfies [p]. *)
Fixpoint allChars (p : ascii -> bool) (s : string) : bool :=
  match s with
  | EmptyString => true
  | String c r => p c && allChars p r
  end.

Definition notComma (c : ascii) : bool := negb (c =? ",")%char.

(* ================================================================== *)
(** * Binary64 mantissas *)




(* ================================================================== *)
(** * The blocks of the document *)

(** What the step [f] adds to the document when it runs from [st]. *)
Definition emitted (f : step) (st : layout) : document :=
  skipn (List.length (doc st)) (doc (f st)).

(** The layout when [createPDFDocument] starts: an empty document. *)
Definition atStart : layout := {| doc := []; yPos := 0 |}.

Section Stages.

Context {host : Host}.

Variable r : Locals.t.

(** Lines 259-312 and 315-368 as steps on the layout. *)
Definition servicesSection : step :=
  fun st =>
    fst (tableSection "SERVICES" "Rate" "Services Subtotal:" (Locals.services r) 0 st).

Definition materialsSection : step :=
  fun st =>
    fst (tableSection "MATERIALS" "Price" "Materials Subtotal:" (Locals.materials r) 0 st).

(** The layout after each block of [createPDFDocument], in terms of its
    local variables. *)
Definition afterHeader : layout := headerBlock (Locals.businessInfo r) atStart.
Definition afterMetadata : layout := metadataBlock (Locals.invoice r) afterHeader.
Definition afterBillTo : layout := billToBlock (Locals.clientInfo r) afterMetadata.
Definition afterJob : layout := jobBlock (Locals.invoice r) afterBillTo.
Definition afterServices : layout := servicesSection afterJob.
Definition afterMaterials : layout := materialsSection afterServices.
Definition afterTotals : layout :=
  totalsBlock (Locals.subtotal r) (Locals.taxAmount r) (Locals.total r) afterMaterials.
Definition afterFooter : layout := footerBlock (Locals.businessInfo r) afterTotals.

End Stages.

(* ================================================================== *)
(** * The columns of a document *)

(** The texts printed at column [x], in order. *)
Definition textsAt (x : float) (d : document) : list string :=
  flat_map
    (fun c =>
       match c with
       | text s x' _ _ => if (x' =? x)%float then [s] else []
       | _ => []
       end)
    d.

(** [l] when [x] is the column [c], nothing otherwise. *)
Definition onColumn (c x : float) (l : list string) : list string :=
  if (c =? x)%float then l else [].

(** The text properties among [l] that are there: neither absent nor empty. *)
Definition presentLines (l : list (option string)) : list string :=
  flat_map (fun o => if JSString.truthy o then [JSString.orElse o ""] else []) l.

(** The five columns the composer prints at: the left margin, the invoice
    data, the labels of the amounts, the amounts and the centre of the
    page. *)
Definition aligned (c : call) : bool :=
  match c with
  | text _ x _ _ =>
      (x =? 20)%float || (x =? 150)%float || (x =? 135)%float
      || (x =? 175)%float || (x =? 105)%float
  | _ => true
  end.

(** Lines of text at the left margin, one every 5 units from [y] down. *)
Fixpoint stacked (lines : list string) (y : float) : list call :=
  match lines with
  | [] => []
  | l :: rest => text l 20 y AlignDefault :: stacked rest (y + 5)
  end.

(** The cursor below lines stacked from [y]. *)
Definition stackEnd (lines : list string) (y : float) : float :=
  fold_left (fun y _ => (y + 5)%float) lines y.

(** A label at column 135 and the amount printed next to it, when there is
    one. *)
Definition labelled (lbl : string) (amount : float) (shown : bool)
  : list (string * string) :=
  if shown then [(lbl, dollars amount)] else [].

(** No character of [s] is a lower-case letter. *)
Definition noLowerCase (s : string) : bool :=
  allChars (fun c => negb (JSString.isLower c)) s.

(** The calls of a section (lines 260-311 and 316-367) when the document
    so far is [before] and the cursor is at [y]: the heading, the table two
    units below it, and the subtotal line ten units below the place where
    jsPDF says the table ended. *)
Definition sectionCalls {host : Host} (heading column label : string)
    (rows : list (list string)) (sectionSubtotal : float)
    (before : document) (y : float) : list call :=
  let table :=
    [ setFontSize 12;
      setTextColor primaryColor;
      setFont "helvetica" "bold";
      text heading 20 y AlignDefault;
      autoTable (y + 2) ["Description"; "Quantity"; column; "Amount"] rows ] in
  let y' := (lastAutoTableFinalY (before ++ table)%list + 10)%float in
  (table
   ++ [ setFontSize 10;
        setTextColor darkGray;
        setFont "helvetica" "bold";
        text label 135 y' AlignDefault;
        text (dollars sectionSubtotal) 175 y' AlignRight ])%list.

(** A record with a description and nothing else. *)
Definition described : InvoiceData :=
  bare
    {| invoiceNumber := None; issueDate := None; dueDate := None;
       status := None; invoiceTitle := None;
       invoiceDescription := Some "Replace the kitchen tap";
       total := Undefined; lineItems := None |}.

(* ================================================================== *)
(** * The chat components

    Source: the component [AgentChat] of
    [src/frontend/src/pages/Agent.jsx] (lines 7-120) and the component
    [AIlySidebar] of [src/unnamed/part_000].  A component is its React
    state; a handler is a function on that state.  What the handlers await
    (the access token, the answer of the server, the microphone) is an
    argument: the answer to a request, or the failure of any of the awaited
    calls, which all end in the same [catch]. *)

(** [String.prototype.trim], over the white space of ASCII. *)
Fixpoint trimEnd (s : string) : string :=
  match s with
  | EmptyString => EmptyString
  | String c r =>
      match trimEnd r with
      | EmptyString => if JSNumber.isWhiteSpace c then EmptyString else String c EmptyString
      | String c' r' => String c (String c' r')
      end
  end.

Definition trim (s : string) : string := trimEnd (JSNumber.trimStart s).

(** [!s] for a string [s]. *)
Definition isEmpty (s : string) : bool :=
  match s with
  | EmptyString => true
  | String _ _ => false
  end.

(** The messages of a conversation, as both components keep them. *)
Module Conversation.

Inductive Role : Type :=
| user
| assistant.

(** [{ role, content }].  The content of an answer is [data.reply], which
    is [undefined] when the server's JSON has no such property. *)
Record message : Type := {
  role : Role;
  content : option string
}.

(** What the [try] block of a chat request comes to: one of the awaited
    calls threw, or the server's JSON was read and [data.reply] is
    [reply]. *)
Inductive response : Type :=
| Threw
| Replied (reply : option string).

Definition isUser (m : message) : bool :=
  match role m with
  | user => true
  | assistant => false
  end.

(** A message of the user whose text is not blank. *)
Definition isQuestion (m : message) : bool :=
  isUser m
  && match content m with
     | Some s => negb (isEmpty (trim s))
     | None => false
     end.

(** The messages after the greeting: questions and answers in turn, with a
    question left open at the end exactly when [awaiting]. *)
Fixpoint dialogue (awaiting : bool) (l : list message) : bool :=
  match l with
  | [] => negb awaiting
  | q :: rest =>
      isQuestion q
      && match rest with
         | [] => awaiting
         | a :: rest' => negb (isUser a) && dialogue awaiting rest'
         end
  end.

End Conversation.

Module AgentChat.

Import Conversation.

(** Lines 9-22: the three [useState] cells. *)
Record state : Type := {
  messages : list message;
  input : string;
  isLoading : bool
}.

Definition setMessages (f : list message -> list message) (st : state) : state :=
  {| messages := f (messages st); input := input st; isLoading := isLoading st |}.

Definition setInput (s : string) (st : state) : state :=
  {| messages := messages st; input := s; isLoading := isLoading st |}.

Definition setIsLoading (b : bool) (st : state) : state :=
  {| messages := messages st; input := input st; isLoading := b |}.

(** Lines 9-22: the state of the component when it is mounted.  The text of
    the greeting (lines 12-18) is the argument [welcome]. *)
Definition initial (welcome : string) : state :=
  {| messages := [ {| role := assistant; content := Some welcome |} ];
     input := "";
     isLoading := false |}.

(** Line 62. *)
Definition apology : string := "Sorry, I had trouble connecting to the server.".

(** Lines 34-41: [handleSend] up to its first [await].  The result is the
    state and the message that the request will carry, or [None] when the
    handler returns at line 36. *)
Definition handleSendStart (st : state) : option (state * string) :=
  if isEmpty (trim (input st)) then None
  else
    let userMessage := {| role := user; content := Some (input st) |} in
    let st1 := setMessages (fun prev => prev ++ [userMessage])%list st in
    let st2 := setInput "" st1 in
    let st3 := setIsLoading true st2 in
    Some (st3, input st).

(** Lines 43-65: [handleSend] once the awaited calls are settled. *)
Definition handleSendEnd (o : response) (st : state) : state :=
  let st1 :=
    match o with
    | Replied reply =>
        setMessages (fun prev => prev ++ [ {| role := assistant; content := reply |} ])%list st
    | Threw =>
        setMessages
          (fun prev => prev ++ [ {| role := assistant; content := Some apology |} ])%list st
    end in
  setIsLoading false st1.

(** Lines 34-66: [handleSend] from the submission to the end, when nothing
    else happens in between; [agent] is what the request comes to. *)
Definition handleSend (agent : string -> response) (st : state) : state :=
  match handleSendStart st with
  | None => st
  | Some (st1, message) => handleSendEnd (agent message) st1
  end.

(** What can happen to the component: the user edits the field (line 111),
    the form is submitted (line 106), the request of a submission is
    settled.  Between two events the component has rendered. *)
Inductive event : Type :=
| Typed (value : string)
| Submitted
| Settled (o : response).

(** Lines 106-117: the field and the button are disabled while
    [isLoading] (lines 112 and 114), so that no edit and no submission
    happens then; a request is settled only while one is awaited. *)
Definition react (st : state) (e : event) : state :=
  match e with
  | Typed value => if isLoading st then st else setInput value st
  | Submitted =>
      if isLoading st then st
      else match handleSendStart st with
           | Some (st1, _) => st1
           | None => st
           end
  | Settled o => if isLoading st then handleSendEnd o st else st
  end.

Definition run (events : list event) (st : state) : state :=
  fold_left react events st.

End AgentChat.

Module AIlySidebar.

Import Conversation.

(** Lines 21-42: the [useState] cells and the two refs that hold data.
    [mediaRecorder] says whether [mediaRecorder.current] is set; a chunk of
    audio is the binary string of its bytes. *)
Record state : Type := {
  isOpen : bool;
  messages : list message;
  input : string;
  isLoading : bool;
  isRecording : bool;
  isTranscribing : bool;
  mediaRecorder : bool;
  audioChunks : list string
}.

Definition setMessages (f : list message -> list message) (st : state) : state :=
  {| isOpen := isOpen st; messages := f (messages st); input := input st;
     isLoading := isLoading st; isRecording := isRecording st;
     isTranscribing := isTranscribing st; mediaRecorder := mediaRecorder st;
     audioChunks := audioChunks st |}.

Definition setInput (s : string) (st : state) : state :=
  {| isOpen := isOpen st; messages := messages st; input := s;
     isLoading := isLoading st; isRecording := isRecording st;
     isTranscribing := isTranscribing st; mediaRecorder := mediaRecorder st;
     audioChunks := audioChunks st |}.

Definition setIsLoading (b : bool) (st : state) : state :=
  {| isOpen := isOpen st; messages := messages st; input := input st;
     isLoading := b; isRecording := isRecording st;
     isTranscribing := isTranscribing st; mediaRecorder := mediaRecorder st;
     audioChunks := audioChunks st |}.

Definition setIsRecording (b : bool) (st : state) : state :=
  {| isOpen := isOpen st; messages := messages st; input := input st;
     isLoading := isLoading st; isRecording := b;
     isTranscribing := isTranscribing st; mediaRecorder := mediaRecorder st;
     audioChunks := audioChunks st |}.

Definition setIsTranscribing (b : bool) (st : state) : state :=
  {| isOpen := isOpen st; messages := messages st; input := input st;
     isLoading := isLoading st; isRecording := isRecording st;
     isTranscribing := b; mediaRecorder := mediaRecorder st;
     audioChunks := audioChunks st |}.

(** Line 131. *)
Definition connectionLost : string := "Connection lost. Check server.".

(** Lines 109-115: [executeChat] up to its first [await]. *)
Definition executeChatStart (messageText : string) (st : state)
  : option (state * string) :=
  if isEmpty (trim messageText) then None
  else
    let userMessage := {| role := user; content := Some messageText |} in
    let st1 := setMessages (fun prev => prev ++ [userMessage])%list st in
    let st2 := setInput "" st1 in
    let st3 := setIsLoading true st2 in
    Some (st3, messageText).

(** Lines 117-134: [executeChat] once the awaited calls are settled. *)
Definition executeChatEnd (o : response) (st : state) : state :=
  let st1 :=
    match o with
    | Replied reply =>
        setMessages (fun prev => prev ++ [ {| role := assistant; content := reply |} ])%list st
    | Threw =>
        setMessages
          (fun prev => prev ++ [ {| role := assistant; content := Some connectionLost |} ])%list
          st
    end in
  setIsLoading false st1.

(** Lines 109-135. *)
Definition executeChat (agent : string -> response) (messageText : string)
    (st : state) : state :=
  match executeChatStart messageText st with
  | None => st
  | Some (st1, message) => executeChatEnd (agent message) st1
  end.

(** What the [try] block of the voice request comes to: one of the awaited
    calls threw, or the server's JSON was read and [data.user_text] is
    [user_text]. *)
Inductive transcription : Type :=
| Failed
| Heard (user_text : option string).

(** Lines 75-98.  [transcriber] is what the voice request comes to for a
    recording, [agent] what a chat request comes to for a message. *)
Definition handleVoiceTranscription (transcriber : string -> transcription)
    (agent : string -> response) (blob : string) (st : state) : state :=
  let st1 := setIsTranscribing true st in
  let st2 :=
    match transcriber blob with
    | Heard user_text =>
        if JSString.truthy user_text then
          let st' := setInput (JSString.orElse user_text "") st1 in
          executeChat agent (JSString.orElse user_text "") st'
        else st1
    | Failed => st1
    end in
  setIsTranscribing false st2.

(** Lines 45-66: [startRecording]; [granted] says whether the [try] block
    runs to its end, which it does when [getUserMedia] grants the
    microphone.  The second component is the text of the alert, when there
    is one. *)
Definition startRecording (granted : bool) (st : state) : state * option string :=
  if granted then
    (setIsRecording true
       {| isOpen := isOpen st; messages := messages st; input := input st;
          isLoading := isLoading st; isRecording := isRecording st;
          isTranscribing := isTranscribing st; mediaRecorder := true;
          audioChunks := [] |},
     None)
  else (st, Some "Microphone access denied.").

(** Lines 51-53: [ondataavailable]. *)
Definition ondataavailable (data : string) (st : state) : state :=
  if (0 <? String.length data)%nat then
    {| isOpen := isOpen st; messages := messages st; input := input st;
       isLoading := isLoading st; isRecording := isRecording st;
       isTranscribing := isTranscribing st; mediaRecorder := mediaRecorder st;
       audioChunks := (audioChunks st ++ [data])%list |}
  else st.

(** Line 56: [new Blob(audioChunks.current)], the chunks one after the
    other. *)
Definition audioBlob (st : state) : string := String.concat "" (audioChunks st).

(** Lines 55-59: [onstop]. *)
Definition onstop (transcriber : string -> transcription)
    (agent : string -> response) (st : state) : state :=
  handleVoiceTranscription transcriber agent (audioBlob st) st.

(** Lines 68-73: [stopRecording].  The second component says whether the
    recorder was told to stop. *)
Definition stopRecording (st : state) : state * bool :=
  if mediaRecorder st && isRecording st then (setIsRecording false st, true)
  else (st, false).

End AIlySidebar.

(* ================================================================== *)
(** * Reading base64 back *)

(** The place of [c] in [s], counted from [n]; 0 when it is not there. *)
Fixpoint indexOf (c : ascii) (s : string) (n : N) : N :=
  match s with
  | EmptyString => 0
  | String a r => if (a =? c)%char then n else indexOf c r (n + 1)
  end.

(** The value of a base64 character. *)
Definition unsextet (c : ascii) : N := indexOf c JSString.alphabet 0.

(** [atob] on a string that [btoa] wrote: four characters give three
    bytes, or two or one before the padding. *)
Fixpoint atob (s : string) : string :=
  match s with
  | String a (String b (String c (String d r))) =>
      let p := unsextet a in
      let q := unsextet b in
      let v := unsextet c in
      let w := unsextet d in
      let first := ascii_of_N (p * 4 + q / 16) in
      let second := ascii_of_N (q mod 16 * 16 + v / 4) in
      let third := ascii_of_N (v mod 4 * 64 + w) in
      if (c =? "=")%char then String first ""
      else if (d =? "=")%char then String first (String second "")
      else String first (String second (String third (atob r)))
  | _ => ""
  end.

Definition notPadding (c : ascii) : bool := negb (c =? "=")%char.

(** A table (or any other call): the head has four columns and every row
    has four cells. *)
Definition fourColumns (c : call) : bool :=
  match c with
  | autoTable _ head body =>
      (List.length head =? 4)%nat
      && forallb (fun row => (List.length row =? 4)%nat) body
  | _ => true
  end.
(** Splits a conjunction into its parts, and nothing else. *)
Ltac conjuncts :=
  repeat match goal with
         | |- _ /\ _ => split
         end.

(* ================================================================== *)
(** * Substrings *)

Lemma prefix_app (k post : string) : String.prefix k (k ++ post) = true.
Proof.
  induction k as [|c k IH]; simpl.
  - destruct post; reflexivity.
  - destruct (ascii_dec c c) as [_|n]; [exact IH | now elim n].
Qed.

Lemma prefix_split (k s : string) :
  String.prefix k s = true -> exists post, s = k ++ post.
Proof.
  revert s; induction k as [|c k IH]; intros s H.
  - exists s; reflexivity.
  - destruct s as [|c' s]; simpl in H; [discriminate|].
    destruct (ascii_dec c c') as [e|_]; [|discriminate].
    destruct (IH s H) as [post ->]; subst c'.
    exists post; reflexivity.
Qed.

Lemma includes_unfold (s k : string) :
  JSString.includes s k
  = String.prefix k s
    || match s with
       | EmptyString => false
       | String _ r => JSString.includes r k
       end.
Proof. destruct s; reflexivity. Qed.

Lemma includes_occurs (s k : string) :
  JSString.includes s k = true -> occursIn k s.
Proof.
  induction s as [|c s IH]; rewrite includes_unfold; intros H;
    apply orb_true_iff in H as [H|H]; try discriminate.
  - destruct (prefix_split _ _ H) as [post e].
    exists "", post; exact e.
  - destruct (prefix_split _ _ H) as [post e].
    exists "", post; exact e.
  - destruct (IH H) as (pre & post & ->).
    exists (String c pre), post; reflexivity.
Qed.

Lemma occurs_includes (pre k post : string) :
  JSString.includes (pre ++ k ++ post) k = true.
Proof.
  induction pre as [|c pre IH].
  - change ("" ++ k ++ post) with (k ++ post).
    now rewrite includes_unfold, prefix_app.
  - change (String c pre ++ k ++ post) with (String c (pre ++ k ++ post)).
    rewrite includes_unfold; cbv iota.
    rewrite IH; apply orb_true_r.
Qed.

Lemma includes_spec (s k : string) :
  JSString.includes s k = true <-> occursIn k s.
Proof.
  split.
  - apply includes_occurs.
  - intros (pre & post & ->); apply occurs_includes.
Qed.

(* ================================================================== *)
(** * Classification *)

Lemma isService_spec (it : LineItem) : isService it = true <-> Service it.
Proof.
  unfold isService, Service, keywords.
  set (desc := JSString.toLowerCase _).
  rewrite !orb_true_iff, !includes_spec.
  split.
  - intros [[[H|H]|H]|H]; eexists; (split; [|exact H]); simpl; auto.
  - intros (k & Hk & H); simpl in Hk.
    destruct Hk as [<-|[<-|[<-|[<-|[]]]]]; auto.
Qed.

Lemma separate_fold (l a b : list LineItem) :
  fold_left
    (fun acc it =>
       if isService it then ((fst acc ++ [it])%list, snd acc)
       else (fst acc, (snd acc ++ [it])%list))
    l (a, b)
  = ((a ++ filter isService l)%list,
     (b ++ filter (fun it => negb (isService it)) l)%list).
Proof.
  revert a b; induction l as [|it l IH]; intros a b; simpl.
  - now rewrite !app_nil_r.
  - destruct (isService it); simpl; rewrite IH; simpl;
      now rewrite <- ?app_assoc.
Qed.

Lemma separate_filter (inv : Invoice) :
  separate (lineItems inv)
  = (filter isService (itemsOf inv),
     filter (fun it => negb (isService it)) (itemsOf inv)).
Proof.
  unfold separate, itemsOf.
  destruct (lineItems inv) as [[|it l]|]; try reflexivity.
  cbv [List.length Nat.ltb Nat.leb].
  apply separate_fold.
Qed.

Lemma filter_lengths {A : Type} (p : A -> bool) (l : list A) :
  (List.length (filter p l) + List.length (filter (fun x => negb (p x)) l)
   = List.length l)%nat.
Proof.
  induction l as [|x l IH]; simpl; [reflexivity|].
  destruct (p x); simpl; lia.
Qed.

(* ================================================================== *)
(** * Rows and subtotals *)

Lemma mapRows_fold (items : list LineItem) (rows : list (list string)) (s : float) :
  fold_left
    (fun acc it =>
       ((fst acc ++ [fst (rowOf it)])%list, (snd acc + snd (rowOf it))%float))
    items (rows, s)
  = ((rows ++ map (fun it => fst (rowOf it)) items)%list,
     fold_left (fun acc a => (acc + a)%float) (map itemAmount items) s).
Proof.
  revert rows s; induction items as [|it items IH]; intros rows s; simpl.
  - now rewrite app_nil_r.
  - rewrite IH; simpl; now rewrite <- app_assoc.
Qed.

Lemma mapRows_spec (items : list LineItem) :
  mapRows items 0
  = (map (fun it => fst (rowOf it)) items, sum (map itemAmount items)).
Proof. unfold mapRows; now rewrite mapRows_fold. Qed.



(* ================================================================== *)
(** * Steps only append *)

Section Adds.

Variable P : call -> bool.

Lemma adds_skip : adds P skip.
Proof. intros st; exists []; split; [now rewrite app_nil_r | reflexivity]. Qed.

Lemma adds_advance (d : float) : adds P (advance d).
Proof. intros st; exists []; split; [now rewrite app_nil_r | reflexivity]. Qed.

Lemma adds_setY (f : layout -> float) : adds P (setY f).
Proof. intros st; exists []; split; [now rewrite app_nil_r | reflexivity]. Qed.

Lemma adds_emit (c : call) : P c = true -> adds P (emit c).
Proof. intros H st; exists [c]; split; [reflexivity | simpl; now rewrite H]. Qed.

Lemma adds_emitAt (c : float -> call) :
  (forall y, P (c y) = true) -> adds P (emitAt c).
Proof. intros H st; apply adds_emit, H. Qed.

Lemma adds_seq (f g : step) : adds P f -> adds P g -> adds P (seq f g).
Proof.
  intros Hf Hg st; unfold seq.
  destruct (Hf st) as (l1 & e1 & p1), (Hg (f st)) as (l2 & e2 & p2).
  exists (l1 ++ l2)%list; split.
  - now rewrite e2, e1, app_assoc.
  - now rewrite forallb_app, p1, p2.
Qed.

Lemma adds_when (b : bool) (f : step) : adds P f -> adds P (when b f).
Proof. intros Hf; destruct b; [exact Hf | apply adds_skip]. Qed.

Lemma adds_forEach {A : Type} (l : list A) (f : A -> step) :
  (forall a, adds P (f a)) -> adds P (forEach l f).
Proof.
  intros Hf; induction l as [|a l IH].
  - apply adds_skip.
  - exact (adds_seq (f a) (forEach l f) (Hf a) IH).
Qed.

Lemma adds_reading {A : Type} (g : layout -> A) (F : A -> step) :
  (forall a, adds P (F a)) -> adds P (fun st => F (g st) st).
Proof. intros HF st; apply HF. Qed.

End Adds.

Lemma quiet_notTotalsLabel (c : call) : quiet c = true -> notTotalsLabel c = true.
Proof.
  destruct c; simpl; intros H; try reflexivity; try discriminate.
  unfold notTotalsLabel, isTotalsLabel, isLabel.
  destruct (x =? 135)%float; [discriminate|].
  now rewrite !andb_false_r.
Qed.

Lemma quiet_notTable (c : call) : quiet c = true -> isTable c = false.
Proof. destruct c; simpl; congruence. Qed.

Lemma quiet_no_tables (l : document) : forallb quiet l = true -> filter isTable l = [].
Proof.
  induction l as [|a l IH]; simpl; [reflexivity|].
  intros H; apply andb_true_iff in H as [Ha H].
  now rewrite (quiet_notTable _ Ha), IH.
Qed.

Lemma notTotalsLabel_isLabel (c : call) :
  notTotalsLabel c = true ->
  isLabel "Subtotal:" c = false /\ isLabel "Tax:" c = false
  /\ isLabel "TOTAL:" c = false.
Proof.
  unfold notTotalsLabel, isTotalsLabel.
  destruct (isLabel "Subtotal:" c), (isLabel "Tax:" c), (isLabel "TOTAL:" c);
    simpl; intros H; try discriminate; auto.
Qed.

Ltac adds_step :=
  lazymatch goal with
  | |- adds _ (seq _ _) => apply adds_seq
  | |- adds _ (when _ _) => apply adds_when
  | |- adds _ skip => apply adds_skip
  | |- adds _ (advance _) => apply adds_advance
  | |- adds _ (setY _) => apply adds_setY
  | |- adds _ (emit _) => apply adds_emit; reflexivity
  | |- adds _ (emitAt _) => apply adds_emitAt; intro; reflexivity
  end.

Ltac adds_steps := repeat adds_step.

Section Blocks.

Context {host : Host}.

Lemma headerBlock_quiet (b : BusinessInfo) : adds quiet (headerBlock b).
Proof. unfold headerBlock, optionalLine; adds_steps. Qed.

Lemma metadataBlock_quiet (inv : Invoice) : adds quiet (metadataBlock inv).
Proof. unfold metadataBlock; adds_steps. Qed.

Lemma billToBlock_quiet (cl : ClientInfo) : adds quiet (billToBlock cl).
Proof. unfold billToBlock, optionalLine; adds_steps. Qed.

Lemma jobBlock_quiet (inv : Invoice) : adds quiet (jobBlock inv).
Proof.
  unfold jobBlock; adds_steps.
  apply (adds_reading quiet
           (fun st => splitTextToSize (doc st)
                        (JSString.orElse (invoiceDescription inv) "") 150)
           (fun lines => forEach lines _)).
  intros lines; apply adds_forEach; intros l; adds_steps.
Qed.

Lemma footerBlock_quiet (b : BusinessInfo) : adds quiet (footerBlock b).
Proof. unfold footerBlock; adds_steps. Qed.

Lemma sectionBlock_notTotalsLabel (heading column label : string)
    (rows : list (list string)) (s : float) :
  (forall y, notTotalsLabel (text label 135 y AlignDefault) = true) ->
  adds notTotalsLabel (sectionBlock heading column label rows s).
Proof.
  intros Hl; unfold sectionBlock.
  repeat first
    [ adds_step
    | apply adds_emitAt; intro;
      first [ apply quiet_notTotalsLabel; reflexivity | apply Hl ] ].
Qed.

End Blocks.

(* ================================================================== *)
(** * The totals block *)

Open Scope list_scope.

Section Totals.

Context {host : Host}.

Lemma totalsBlock_doc (s t tot : float) (st : layout) :
  doc (totalsBlock s t tot st) = (doc st ++ totalsCalls s t tot (yPos st))%list.
Proof.
  destruct st as [D Y].
  cbv [totalsBlock totalsCalls seq when emitAt emit advance dollars doc yPos].
  destruct (0 <? t)%float; rewrite <- ?app_assoc; reflexivity.
Qed.

End Totals.

Lemma printedAfter_skip (lbl : string) (pre rest : document) :
  forallb (fun c => negb (isLabel lbl c)) pre = true ->
  printedAfter lbl (pre ++ rest) = printedAfter lbl rest.
Proof.
  induction pre as [|c pre IH]; intros H; [reflexivity|].
  simpl in H; apply andb_true_iff in H as [Hc H].
  change ((c :: pre) ++ rest)%list with (c :: (pre ++ rest))%list.
  cbn [printedAfter].
  destruct (isLabel lbl c); [discriminate | auto].
Qed.

Lemma existsb_skip (lbl : string) (pre : document) :
  forallb (fun c => negb (isLabel lbl c)) pre = true ->
  existsb (isLabel lbl) pre = false.
Proof.
  induction pre as [|c pre IH]; intros H; [reflexivity|].
  simpl in H; apply andb_true_iff in H as [Hc H].
  simpl; rewrite (IH H).
  destruct (isLabel lbl c); [discriminate | reflexivity].
Qed.

Lemma forallb_weaken {A : Type} (P Q : A -> bool) (l : list A) :
  (forall a, P a = true -> Q a = true) ->
  forallb P l = true -> forallb Q l = true.
Proof. intros PQ; rewrite !forallb_forall; auto. Qed.

Lemma totalsCalls_total (s t tot y0 : float) (rest : document) :
  printedAfter "TOTAL:" (totalsCalls s t tot y0 ++ rest) = Some (dollars tot).
Proof. unfold totalsCalls; destruct (0 <? t)%float; reflexivity. Qed.

Lemma totalsCalls_subtotal (s t tot y0 : float) (rest : document) :
  printedAfter "Subtotal:" (totalsCalls s t tot y0 ++ rest) = Some (dollars s).
Proof. unfold totalsCalls; destruct (0 <? t)%float; reflexivity. Qed.


Lemma totalsCalls_taxLine (s t tot y0 : float) :
  existsb (isLabel "Tax:") (totalsCalls s t tot y0) = (0 <? t)%float.
Proof. unfold totalsCalls; destruct (0 <? t)%float; reflexivity. Qed.

Lemma totalsCalls_noTable (s t tot y0 : float) :
  filter isTable (totalsCalls s t tot y0) = [].
Proof. unfold totalsCalls; destruct (0 <? t)%float; reflexivity. Qed.

(* ================================================================== *)
(** * The shape of the document *)

Section Shape.

Context {host : Host}.

Lemma headerBlock_doc (b : BusinessInfo) (st : layout) :
  exists l,
    doc (headerBlock b st) = (doc st ++ l)%list /\ forallb quiet l = true
    /\ In (text (JSString.orElse (businessName b) "Invoice") 20 25 AlignDefault) l.
Proof.
  destruct st as [D Y].
  cbv [headerBlock optionalLine seq when emit emitAt setY advance skip doc yPos].
  destruct (JSString.truthy (businessAddress b)),
           (JSString.truthy (businessPhone b)),
           (JSString.truthy (businessEmail b));
    rewrite <- ?app_assoc; cbn [app];
    (eexists; split; [reflexivity|]; split;
     [reflexivity | do 3 right; left; reflexivity]).
Qed.

Lemma footerBlock_doc (b : BusinessInfo) (st : layout) :
  exists l,
    doc (footerBlock b st) = (doc st ++ l)%list /\ forallb quiet l = true
    /\ In (text "Thank you for your business!" 105 (pageHeight - 20) AlignCenter) l.
Proof.
  destruct st as [D Y].
  cbv [footerBlock seq when emit doc yPos].
  destruct (JSString.truthy (businessName b));
    rewrite <- ?app_assoc; cbn [app];
    (eexists; split; [reflexivity|]; split;
     [reflexivity | do 3 right; left; reflexivity]).
Qed.

Lemma sectionBlock_tables (heading column label : string)
    (rows : list (list string)) (s : float) (st : layout) :
  exists l,
    doc (sectionBlock heading column label rows s st) = (doc st ++ l)%list
    /\ map bodyOf (filter isTable l) = [rows].
Proof.
  destruct st as [D Y].
  cbv [sectionBlock seq emit emitAt setY advance doc yPos].
  rewrite <- ?app_assoc; cbn [app].
  eexists; split; reflexivity.
Qed.

Lemma tableSection_doc (heading column label : string)
    (items : list LineItem) (s : float) (st : layout) :
  (forall y, notTotalsLabel (text label 135 y AlignDefault) = true) ->
  exists l,
    doc (fst (tableSection heading column label items s st)) = (doc st ++ l)%list
    /\ forallb notTotalsLabel l = true
    /\ (items = [] -> l = [])
    /\ (s = 0%float -> map bodyOf (filter isTable l) = tableBodies items).
Proof.
  intros Hl; unfold tableSection.
  destruct items as [|it items].
  - exists []; cbn; rewrite app_nil_r; auto.
  - cbn [List.length Nat.ltb Nat.leb fst].
    destruct (sectionBlock_notTotalsLabel heading column label
                (fst (mapRows (it :: items) s)) (snd (mapRows (it :: items) s))
                Hl st) as (l & e & p).
    destruct (sectionBlock_tables heading column label
                (fst (mapRows (it :: items) s)) (snd (mapRows (it :: items) s))
                st) as (l' & e' & t).
    assert (l' = l) by (rewrite e in e'; now apply app_inv_head in e').
    subst l'.
    exists l; conjuncts; auto; [discriminate|].
    intros ->; rewrite t, mapRows_spec; reflexivity.
Qed.

Lemma tableSection_subtotal (heading column label : string)
    (items : list LineItem) (st : layout) :
  snd (tableSection heading column label items 0 st) = sum (map itemAmount items).
Proof.
  unfold tableSection; destruct items as [|it items]; [reflexivity|].
  cbn [List.length Nat.ltb Nat.leb snd].
  now rewrite mapRows_spec.
Qed.

(** The document in terms of the local variables. *)
Lemma doc_eq (d : InvoiceData) (u : option BusinessInfo) (c : option ClientInfo) :
  let r := runCreatePDFDocument d u c in
  Locals.doc r
  = doc
      (footerBlock (Locals.businessInfo r)
         (totalsBlock (Locals.subtotal r) (Locals.taxAmount r) (Locals.total r)
            (fst
               (tableSection "MATERIALS" "Price" "Materials Subtotal:"
                  (Locals.materials r) 0
                  (fst
                     (tableSection "SERVICES" "Rate" "Services Subtotal:"
                        (Locals.services r) 0
                        (jobBlock (Locals.invoice r)
                           (billToBlock (Locals.clientInfo r)
                              (metadataBlock (Locals.invoice r)
                                 (headerBlock (Locals.businessInfo r)
                                    {| doc := []; yPos := 0 |})))))))))).
Proof. reflexivity. Qed.

(** The document is: the heading blocks, the two sections, the totals
    block and the footer. *)
Lemma document_shape (d : InvoiceData) (u : option BusinessInfo)
    (c : option ClientInfo) :
  let r := runCreatePDFDocument d u c in
  exists pre body y foot,
    Locals.doc r
    = (pre ++ body
       ++ totalsCalls (Locals.subtotal r) (Locals.taxAmount r) (Locals.total r) y
       ++ foot)%list
    /\ forallb quiet pre = true
    /\ forallb notTotalsLabel body = true
    /\ forallb quiet foot = true
    /\ In (text (JSString.orElse (businessName (Locals.businessInfo r)) "Invoice")
             20 25 AlignDefault) pre
    /\ In (text "Thank you for your business!" 105 (pageHeight - 20) AlignCenter) foot
    /\ (Locals.services r = [] -> Locals.materials r = [] -> body = [])
    /\ map bodyOf (filter isTable body)
       = (tableBodies (Locals.services r) ++ tableBodies (Locals.materials r))%list.
Proof.
  intros r; unfold r at 1; rewrite doc_eq; fold r.
  generalize (Locals.subtotal r) (Locals.taxAmount r) (Locals.total r)
    (Locals.services r) (Locals.materials r) (Locals.invoice r)
    (Locals.businessInfo r) (Locals.clientInfo r).
  clear r; intros S T Tot sv mt inv b cl.
  set (st0 := {| doc := []; yPos := 0 |}).
  destruct (headerBlock_doc b st0) as (l0 & e0 & q0 & i0).
  set (st1 := headerBlock b st0) in *.
  destruct (metadataBlock_quiet inv st1) as (l1 & e1 & q1).
  set (st2 := metadataBlock inv st1) in *.
  destruct (billToBlock_quiet cl st2) as (l1' & e1' & q1').
  set (st3 := billToBlock cl st2) in *.
  destruct (jobBlock_quiet inv st3) as (l1'' & e1'' & q1'').
  set (st4 := jobBlock inv st3) in *.
  destruct (tableSection_doc "SERVICES" "Rate" "Services Subtotal:" sv 0 st4
              (fun _ => eq_refl)) as (l2 & e2 & q2 & n2 & t2).
  set (s := tableSection "SERVICES" "Rate" "Services Subtotal:" sv 0 st4) in *.
  destruct (tableSection_doc "MATERIALS" "Price" "Materials Subtotal:" mt 0 (fst s)
              (fun _ => eq_refl)) as (l3 & e3 & q3 & n3 & t3).
  set (m := tableSection "MATERIALS" "Price" "Materials Subtotal:" mt 0 (fst s)) in *.
  destruct (footerBlock_doc b (totalsBlock S T Tot (fst m))) as (l5 & e5 & q5 & i5).
  rewrite e5, totalsBlock_doc, e3, e2, e1'', e1', e1, e0.
  exists (l0 ++ l1 ++ l1' ++ l1''), (l2 ++ l3), (yPos (fst m)), l5.
  conjuncts; auto.
  - cbn [doc app st0]; now rewrite <- !app_assoc.
  - now rewrite !forallb_app, q0, q1, q1', q1''.
  - now rewrite forallb_app, q2, q3.
  - apply in_or_app; now left.
  - intros Hs Hm; now rewrite (n2 Hs), (n3 Hm).
  - now rewrite filter_app, map_app, (t2 eq_refl), (t3 eq_refl).
Qed.

End Shape.

(* ================================================================== *)
(** * Facts of binary64 arithmetic *)

Lemma mul_nan_l (y : float) : (nan * y)%float = nan.
Proof. apply Prim2SF_inj; rewrite mul_spec; reflexivity. Qed.

Lemma mul_nan_r (x : float) : (x * nan)%float = nan.
Proof.
  apply Prim2SF_inj; rewrite mul_spec.
  change (Prim2SF nan) with S754_nan.
  destruct (Prim2SF x); reflexivity.
Qed.

Lemma add_nan_l (y : float) : (nan + y)%float = nan.
Proof. apply Prim2SF_inj; rewrite add_spec; reflexivity. Qed.

Lemma add_nan_r (x : float) : (x + nan)%float = nan.
Proof.
  apply Prim2SF_inj; rewrite add_spec.
  change (Prim2SF nan) with S754_nan.
  destruct (Prim2SF x); reflexivity.
Qed.

Lemma positive_nonzero (x : float) : (0 <? x)%float = true -> (x =? 0)%float = false.
Proof.
  rewrite ltb_spec, eqb_spec.
  change (Prim2SF 0) with (S754_zero false).
  destruct (Prim2SF x) as [s|s| |s m e]; try destruct s; cbn; congruence.
Qed.

Lemma float_neq (x y : float) : Prim2SF x <> Prim2SF y -> x <> y.
Proof. intros H e; apply H; now rewrite e. Qed.

Lemma sum_from_nan (l : list float) :
  fold_left (fun acc a => (acc + a)%float) l nan = nan.
Proof. induction l as [|a l IH]; simpl; [reflexivity | now rewrite add_nan_l]. Qed.

Lemma sum_with_nan (l : list float) (s : float) :
  In nan l -> fold_left (fun acc a => (acc + a)%float) l s = nan.
Proof.
  revert s; induction l as [|a l IH]; intros s; simpl; [tauto|].
  intros [->|H]; [rewrite add_nan_r; apply sum_from_nan | auto].
Qed.

(* ================================================================== *)
(** * Binary64 rounding *)

Section Binary64.

Local Open Scope Z_scope.






















End Binary64.

(* ================================================================== *)
(** * The record's total *)

Lemma falsy_is_zero (v : value) : toBoolean v = false -> parseFloat (orZero v) = 0%float.
Proof. unfold orZero; intros ->; vm_compute; reflexivity. Qed.

Lemma positive_total_authoritative (inv : Invoice) :
  (0 <? totalOf inv)%float = true -> authoritative inv = true.
Proof.
  intros H; unfold authoritative.
  rewrite (positive_nonzero _ H), andb_true_r.
  unfold totalOf in H.
  destruct (total inv); try reflexivity;
    rewrite falsy_is_zero in H by reflexivity; discriminate.
Qed.

Lemma no_total_not_positive (inv : Invoice) :
  authoritative inv = false -> (0 <? totalOf inv)%float = false.
Proof.
  intros H; destruct (0 <? totalOf inv)%float eqn:E; [|reflexivity].
  apply positive_total_authoritative in E; congruence.
Qed.

(* ================================================================== *)
(** * What the totals block prints *)

Lemma label_cases (c : call) (lbl : string) :
  lbl = "Subtotal:" \/ lbl = "Tax:" \/ lbl = "TOTAL:" ->
  notTotalsLabel c = true -> negb (isLabel lbl c) = true.
Proof.
  intros H Hc; apply notTotalsLabel_isLabel in Hc as (a & b & t).
  destruct H as [->|[->| ->]]; [rewrite a | rewrite b | rewrite t]; reflexivity.
Qed.

Lemma skip_to_totals (lbl : string) (pre body rest : document) :
  lbl = "Subtotal:" \/ lbl = "Tax:" \/ lbl = "TOTAL:" ->
  forallb quiet pre = true -> forallb notTotalsLabel body = true ->
  printedAfter lbl (pre ++ body ++ rest) = printedAfter lbl rest.
Proof.
  intros H qp qb.
  rewrite !printedAfter_skip; [reflexivity| |].
  - eapply forallb_weaken; [|exact qb]; intros c; apply label_cases, H.
  - eapply forallb_weaken; [|exact qp].
    intros c Hc; apply label_cases; [exact H | now apply quiet_notTotalsLabel].
Qed.

Section Printed.

Context {host : Host}.

Lemma printed_subtotal (d : InvoiceData) (u : option BusinessInfo)
    (c : option ClientInfo) :
  let r := runCreatePDFDocument d u c in
  printedSubtotal (Locals.doc r) = Some (dollars (Locals.subtotal r)).
Proof.
  intros r; destruct (document_shape d u c) as (pre & body & y & foot & e & qp & qb & _).
  fold r in e; unfold printedSubtotal; rewrite e, skip_to_totals by auto.
  apply totalsCalls_subtotal.
Qed.

Lemma printed_total (d : InvoiceData) (u : option BusinessInfo)
    (c : option ClientInfo) :
  let r := runCreatePDFDocument d u c in
  printedTotal (Locals.doc r) = Some (dollars (Locals.total r)).
Proof.
  intros r; destruct (document_shape d u c) as (pre & body & y & foot & e & qp & qb & _).
  fold r in e; unfold printedTotal; rewrite e, skip_to_totals by auto.
  apply totalsCalls_total.
Qed.


Lemma tax_line (d : InvoiceData) (u : option BusinessInfo)
    (c : option ClientInfo) :
  let r := runCreatePDFDocument d u c in
  taxLineRendered (Locals.doc r) = (0 <? Locals.taxAmount r)%float.
Proof.
  intros r;
    destruct (document_shape d u c) as (pre & body & y & foot & e & qp & qb & qf & _).
  fold r in e; unfold taxLineRendered; rewrite e, !existsb_app.
  rewrite totalsCalls_taxLine.
  rewrite (existsb_skip "Tax:" pre), (existsb_skip "Tax:" body), (existsb_skip "Tax:" foot).
  - now rewrite orb_false_r.
  - eapply forallb_weaken; [|exact qf].
    intros a Ha; apply label_cases; [auto | now apply quiet_notTotalsLabel].
  - eapply forallb_weaken; [|exact qb]; intros a; apply label_cases; auto.
  - eapply forallb_weaken; [|exact qp].
    intros a Ha; apply label_cases; [auto | now apply quiet_notTotalsLabel].
Qed.

Lemma header_and_footer (d : InvoiceData) (u : option BusinessInfo)
    (c : option ClientInfo) :
  let r := runCreatePDFDocument d u c in
  In (text (JSString.orElse (businessName (Locals.businessInfo r)) "Invoice")
        20 25 AlignDefault) (Locals.doc r)
  /\ In (text "Thank you for your business!" 105 (pageHeight - 20) AlignCenter)
       (Locals.doc r).
Proof.
  intros r;
    destruct (document_shape d u c)
      as (pre & body & y & foot & e & _ & _ & _ & ih & ift & _ & _).
  fold r in e, ih; rewrite e; split.
  - apply in_or_app; now left.
  - apply in_or_app; right; apply in_or_app; right; apply in_or_app; now right.
Qed.

Lemma no_items_no_tables (d : InvoiceData) (u : option BusinessInfo)
    (c : option ClientInfo) :
  let r := runCreatePDFDocument d u c in
  Locals.services r = [] -> Locals.materials r = [] -> tables (Locals.doc r) = [].
Proof.
  intros r Hs Hm;
    destruct (document_shape d u c)
      as (pre & body & y & foot & e & qp & _ & qf & _ & _ & nb & _).
  fold r in e, nb; rewrite e, (nb Hs Hm); unfold tables.
  rewrite !filter_app, totalsCalls_noTable; cbn [app].
  now rewrite (quiet_no_tables pre qp), (quiet_no_tables foot qf).
Qed.

End Printed.

(* ================================================================== *)
(** * The local variables in terms of the record *)

Section LocalsOf.

Context {host : Host}.

Variables (d : InvoiceData) (u : option BusinessInfo) (c : option ClientInfo).

Let r : Locals.t := runCreatePDFDocument d u c.

Lemma invoiceTotal_eq : Locals.invoiceTotal r = totalOf (Locals.invoice r).
Proof. reflexivity. Qed.

Lemma taxAmount_eq :
  Locals.taxAmount r
  = if (0 <? totalOf (Locals.invoice r))%float
       && negb (totalOf (Locals.invoice r) =? Locals.subtotal r)%float
    then (totalOf (Locals.invoice r) - Locals.subtotal r)%float
    else (Locals.subtotal r * 0.10)%float.
Proof. reflexivity. Qed.

Lemma total_eq :
  Locals.total r
  = if (0 <? totalOf (Locals.invoice r))%float then totalOf (Locals.invoice r)
    else (Locals.subtotal r + Locals.taxAmount r)%float.
Proof. reflexivity. Qed.

Lemma subtotal_eq :
  Locals.subtotal r
  = (Locals.servicesSubtotal r + Locals.materialsSubtotal r)%float.
Proof. reflexivity. Qed.

Lemma services_eq :
  Locals.services r = filter isService (itemsOf (Locals.invoice r)).
Proof.
  change (Locals.services r) with (fst (separate (lineItems (Locals.invoice r)))).
  now rewrite separate_filter.
Qed.

Lemma materials_eq :
  Locals.materials r
  = filter (fun it => negb (isService it)) (itemsOf (Locals.invoice r)).
Proof.
  change (Locals.materials r) with (snd (separate (lineItems (Locals.invoice r)))).
  now rewrite separate_filter.
Qed.

Lemma servicesSubtotal_eq :
  Locals.servicesSubtotal r = sum (map itemAmount (Locals.services r)).
Proof. apply tableSection_subtotal. Qed.

Lemma materialsSubtotal_eq :
  Locals.materialsSubtotal r = sum (map itemAmount (Locals.materials r)).
Proof. apply tableSection_subtotal. Qed.

End LocalsOf.

(* ================================================================== *)
(** * Tax and total *)

(** C1, as amended.  For every invoice record, the computed tax equals
    record.total minus subtotal whenever record.total, read as a number, is
    strictly positive and differs from the computed subtotal; in every other
    case (total absent, zero, negative, not a number, or equal to the
    subtotal) the computed tax equals 0.10 times the subtotal.  A strictly
    positive total is one that is present and nonzero. *)
Theorem tax_resolution (host : Host) (d : InvoiceData)
    (u : option BusinessInfo) (c : option ClientInfo) :
  let r := runCreatePDFDocument d u c in
  let T := totalOf (Locals.invoice r) in
  let S := Locals.subtotal r in
  ((0 <? T)%float = true -> (T =? S)%float = false ->
   Locals.taxAmount r = (T - S)%float)
  /\ ((0 <? T)%float = false \/ (T =? S)%float = true ->
      Locals.taxAmount r = (S * 0.10)%float)
  /\ ((0 <? T)%float = true -> authoritative (Locals.invoice r) = true)
  /\ (authoritative (Locals.invoice r) = false ->
      Locals.taxAmount r = (S * 0.10)%float).
Proof.
  intros r T S.
  assert (Helse : (0 <? T)%float = false \/ (T =? S)%float = true ->
                  Locals.taxAmount r = (S * 0.10)%float).
  { intros H; unfold r; rewrite taxAmount_eq; fold r T S.
    destruct H as [-> | ->]; [reflexivity | now rewrite andb_false_r]. }
  conjuncts.
  - intros HT HS; unfold r; rewrite taxAmount_eq; fold r T S.
    now rewrite HT, HS.
  - exact Helse.
  - apply positive_total_authoritative.
  - intros H; apply Helse; left; now apply no_total_not_positive.
Qed.

Lemma tax_resolution_witness :
  Locals.taxAmount (@runCreatePDFDocument plainHost scenarioC None None)
  = (-5)%float.
Proof.
  rewrite (proj1 (tax_resolution plainHost scenarioC None None));
    vm_compute; reflexivity.
Defined.

(** C1, as stated, fails on a credit note: its total of -5 is present,
    nonzero and differs from the subtotal of 100, and the tax is a tenth of
    the subtotal, not -105. *)
Lemma tax_of_negative_total :
  authoritative (Locals.invoice (@runCreatePDFDocument plainHost creditNote None None))
  = true
  /\ Locals.taxAmount (@runCreatePDFDocument plainHost creditNote None None) = 10%float
  /\ specifiedTax
       (Locals.invoice (@runCreatePDFDocument plainHost creditNote None None))
       (Locals.subtotal (@runCreatePDFDocument plainHost creditNote None None))
     = (-105)%float
  /\ Locals.taxAmount (@runCreatePDFDocument plainHost creditNote None None)
     <> specifiedTax
          (Locals.invoice (@runCreatePDFDocument plainHost creditNote None None))
          (Locals.subtotal (@runCreatePDFDocument plainHost creditNote None None)).
Proof.
  conjuncts; try (vm_compute; reflexivity).
  apply float_neq; vm_compute; discriminate.
Qed.

(** C2, as amended.  For every invoice record, the final total printed in
    the totals block equals record.total whenever record.total, read as a
    number, is strictly positive, and equals subtotal plus the computed tax
    otherwise (total absent, zero, negative or not a number). *)
Theorem final_total_resolution (host : Host) (d : InvoiceData)
    (u : option BusinessInfo) (c : option ClientInfo) :
  let r := runCreatePDFDocument d u c in
  let T := totalOf (Locals.invoice r) in
  ((0 <? T)%float = true -> printedTotal (Locals.doc r) = Some (dollars T))
  /\ ((0 <? T)%float = false ->
      printedTotal (Locals.doc r)
      = Some (dollars (Locals.subtotal r + Locals.taxAmount r)))
  /\ ((0 <? T)%float = true -> authoritative (Locals.invoice r) = true)
  /\ (authoritative (Locals.invoice r) = false ->
      printedTotal (Locals.doc r)
      = Some (dollars (Locals.subtotal r + Locals.taxAmount r))).
Proof.
  intros r T.
  assert (Helse : (0 <? T)%float = false ->
                  printedTotal (Locals.doc r)
                  = Some (dollars (Locals.subtotal r + Locals.taxAmount r))).
  { intros HT; unfold r; rewrite printed_total, total_eq; fold r T.
    now rewrite HT. }
  conjuncts.
  - intros HT; unfold r; rewrite printed_total, total_eq; fold r T.
    now rewrite HT.
  - exact Helse.
  - apply positive_total_authoritative.
  - intros H; apply Helse; now apply no_total_not_positive.
Qed.

Lemma final_total_resolution_witness :
  printedTotal (Locals.doc (@runCreatePDFDocument plainHost scenarioC None None))
  = Some "$95.00"
  /\ printedTotal (Locals.doc (@runCreatePDFDocument plainHost scenarioB None None))
     = Some "$110.00".
Proof.
  split.
  - rewrite (proj1 (final_total_resolution plainHost scenarioC None None));
      vm_compute; reflexivity.
  - rewrite (proj1 (proj2 (final_total_resolution plainHost scenarioB None None)));
      vm_compute; reflexivity.
Defined.

(** C2, as stated, fails on a credit note: its total of -5 is present and
    nonzero, and the total printed is 110.00, subtotal plus tax. *)
Lemma total_of_negative_total :
  authoritative (Locals.invoice (@runCreatePDFDocument plainHost creditNote None None))
  = true
  /\ printedTotal (Locals.doc (@runCreatePDFDocument plainHost creditNote None None))
     = Some "$110.00"
  /\ dollars
       (specifiedTotal
          (Locals.invoice (@runCreatePDFDocument plainHost creditNote None None))
          (Locals.subtotal (@runCreatePDFDocument plainHost creditNote None None))
          (Locals.taxAmount (@runCreatePDFDocument plainHost creditNote None None)))
     = "$-5.00"
  /\ printedTotal (Locals.doc (@runCreatePDFDocument plainHost creditNote None None))
     <> Some
          (dollars
             (specifiedTotal
                (Locals.invoice (@runCreatePDFDocument plainHost creditNote None None))
                (Locals.subtotal (@runCreatePDFDocument plainHost creditNote None None))
                (Locals.taxAmount
                   (@runCreatePDFDocument plainHost creditNote None None)))).
Proof.
  conjuncts; try (vm_compute; reflexivity).
  vm_compute; discriminate.
Qed.



(** C8.  For every record whose lineItems is absent or empty and that
    carries no authoritative total, both tables are skipped, the subtotal is
    0, the computed tax is 0 and its line is omitted, the final total is
    0.00, and the document is built with its header and its footer. *)
Theorem empty_invoice (host : Host) (d : InvoiceData)
    (u : option BusinessInfo) (c : option ClientInfo) :
  let r := runCreatePDFDocument d u c in
  itemsOf (Locals.invoice r) = [] ->
  authoritative (Locals.invoice r) = false ->
  tables (Locals.doc r) = []
  /\ Locals.subtotal r = 0%float
  /\ Locals.taxAmount r = 0%float
  /\ taxLineRendered (Locals.doc r) = false
  /\ Locals.total r = 0%float
  /\ printedSubtotal (Locals.doc r) = Some "$0.00"
  /\ printedTotal (Locals.doc r) = Some "$0.00"
  /\ In (text (JSString.orElse (businessName (Locals.businessInfo r)) "Invoice")
           20 25 AlignDefault) (Locals.doc r)
  /\ In (text "Thank you for your business!" 105 (pageHeight - 20) AlignCenter)
       (Locals.doc r).
Proof.
  intros r Hitems Hauth.
  assert (Hs : Locals.services r = []) by (unfold r; now rewrite services_eq; fold r; rewrite Hitems).
  assert (Hm : Locals.materials r = []) by (unfold r; now rewrite materials_eq; fold r; rewrite Hitems).
  assert (HS : Locals.subtotal r = 0%float).
  { unfold r; rewrite subtotal_eq, servicesSubtotal_eq, materialsSubtotal_eq; fold r.
    rewrite Hs, Hm; reflexivity. }
  apply no_total_not_positive in Hauth.
  assert (Htax : Locals.taxAmount r = 0%float).
  { unfold r; rewrite taxAmount_eq; fold r; rewrite Hauth, HS; reflexivity. }
  assert (Htot : Locals.total r = 0%float).
  { unfold r; rewrite total_eq; fold r; rewrite Hauth, HS, Htax; reflexivity. }
  conjuncts.
  - now apply no_items_no_tables.
  - exact HS.
  - exact Htax.
  - unfold r; rewrite tax_line; fold r; now rewrite Htax.
  - exact Htot.
  - unfold r; rewrite printed_subtotal; fold r; rewrite HS; vm_compute; reflexivity.
  - unfold r; rewrite printed_total; fold r; rewrite Htot; vm_compute; reflexivity.
  - exact (proj1 (header_and_footer d u c)).
  - exact (proj2 (header_and_footer d u c)).
Qed.

Lemma empty_invoice_witness :
  tables (Locals.doc (@runCreatePDFDocument plainHost scenarioA None None)) = []
  /\ printedTotal (Locals.doc (@runCreatePDFDocument plainHost scenarioA None None))
     = Some "$0.00".
Proof.
  destruct (empty_invoice plainHost scenarioA None None)
    as (H & _ & _ & _ & _ & _ & H' & _); [reflexivity | vm_compute; reflexivity |].
  exact (conj H H').
Defined.




(* ================================================================== *)
(** * Tables *)


(* ================================================================== *)
(** * Items that carry an amount *)






(* ================================================================== *)
(** * The data URI *)

Lemma append_snoc (cur r : string) (c : ascii) :
  ((cur ++ String c "") ++ r)%string = (cur ++ String c r)%string.
Proof. induction cur as [|a cur IH]; simpl; [reflexivity | now rewrite IH]. Qed.

Lemma splitAcc_free (sep : ascii) (s cur : string) :
  allChars (fun c => negb (c =? sep)%char) s = true ->
  JSString.splitAcc sep s cur = [(cur ++ s)%string].
Proof.
  revert cur; induction s as [|c s IH]; intros cur H; simpl.
  - induction cur as [|a cur IHc]; simpl; [reflexivity|].
    injection IHc as e; now rewrite <- e.
  - simpl in H; apply andb_true_iff in H as [Hc H].
    destruct (c =? sep)%char; [discriminate|].
    now rewrite (IH _ H), append_snoc.
Qed.

Lemma allChars_get (p : ascii -> bool) (s : string) (k : nat) (c : ascii) :
  allChars p s = true -> String.get k s = Some c -> p c = true.
Proof.
  revert k; induction s as [|a s IH]; intros k H G; simpl in *; [discriminate|].
  apply andb_true_iff in H as [Ha H].
  destruct k; [injection G as <-; exact Ha | eauto].
Qed.

Lemma sextet_notComma (n : N) : notComma (JSString.sextet n) = true.
Proof.
  unfold JSString.sextet.
  destruct (String.get (N.to_nat n) JSString.alphabet) as [c|] eqn:E; [|reflexivity].
  exact (allChars_get notComma JSString.alphabet _ c eq_refl E).
Qed.

Lemma btoa_notComma_steps (s : string) :
  allChars notComma (JSString.btoa s) = true
  /\ (forall a, allChars notComma (JSString.btoa (String a s)) = true)
  /\ (forall a b, allChars notComma (JSString.btoa (String a (String b s))) = true).
Proof.
  induction s as [|c s (IH1 & IH2 & IH3)].
  - conjuncts; intros; cbn [JSString.btoa allChars]; now rewrite ?sextet_notComma.
  - conjuncts; [apply IH2 | intros a; apply IH3 |].
    intros a b; cbn [JSString.btoa allChars].
    now rewrite !sextet_notComma, IH1.
Qed.

Lemma btoa_notComma (s : string) : allChars notComma (JSString.btoa s) = true.
Proof. apply btoa_notComma_steps. Qed.

Lemma split_data_uri (b : string) :
  allChars notComma b = true ->
  nth_error (JSString.split "," ("data:application/pdf;base64," ++ b)%string) 1
  = Some b.
Proof.
  intros H; unfold JSString.split.
  cbn -[JSString.splitAcc nth_error].
  cbn [JSString.splitAcc Ascii.eqb Bool.eqb andb].
  cbn [nth_error append].
  now rewrite (splitAcc_free "," b "" H).
Qed.

(** C3.  For every record, business profile and client profile, the entry
    point that saves a file and the entry point that returns a base64
    string call [createPDFDocument] on the same arguments, so that the
    same calls are made on their jsPDF objects.  Each entry point runs on
    a jsPDF object of its own: the bytes saved by the first are the output
    of its object and the bytes that the second encodes are the output of
    its object, and when the two objects carry the same file identifier
    and creation date, the bytes saved are the bytes encoded. *)
Theorem both_entry_points_same_document (host : Host) (saved encoded : Instance)
    (d : InvoiceData) (u : option BusinessInfo) (c : option ClientInfo) :
  fileBytes (generatePDF saved d u c) = output saved (createPDFDocument d u c)
  /\ generatePDFBase64 encoded d u c
     = Some (JSString.btoa (output encoded (createPDFDocument d u c)))
  /\ (fileId saved = fileId encoded ->
      creationDate saved = creationDate encoded ->
      generatePDFBase64 encoded d u c
      = Some (JSString.btoa (fileBytes (generatePDF saved d u c)))).
Proof.
  assert (H : generatePDFBase64 encoded d u c
              = Some (JSString.btoa (output encoded (createPDFDocument d u c)))).
  { unfold generatePDFBase64, outputDataUriString.
    apply split_data_uri, btoa_notComma. }
  conjuncts; [reflexivity | exact H |].
  destruct saved as [i t], encoded as [i' t']; cbn [fileId creationDate].
  intros -> ->; exact H.
Qed.

Lemma both_entry_points_same_document_witness :
  fileId firstObject = fileId firstObject
  /\ creationDate firstObject = creationDate firstObject
  /\ @generatePDFBase64 plainHost firstObject scenarioB None None
     = Some (JSString.btoa
               (fileBytes (@generatePDF plainHost firstObject scenarioB None None))).
Proof.
  conjuncts; [reflexivity | reflexivity |].
  exact (proj2 (proj2 (both_entry_points_same_document plainHost
                         firstObject firstObject scenarioB None None))
           eq_refl eq_refl).
Defined.

(** The same record, saved through one jsPDF object and encoded through
    another: the bytes encoded are not the bytes saved, because the two
    objects have file identifiers of their own. *)
Lemma saved_and_encoded_bytes_differ :
  @generatePDFBase64 plainHost secondObject scenarioB None None
  <> Some (JSString.btoa
             (fileBytes (@generatePDF plainHost firstObject scenarioB None None))).
Proof.
  intros E.
  assert (H : match @generatePDFBase64 plainHost secondObject scenarioB None None with
              | Some b =>
                  String.eqb b
                    (JSString.btoa
                       (fileBytes (@generatePDF plainHost firstObject scenarioB None None)))
              | None => false
              end = true)
    by (rewrite E; apply String.eqb_refl).
  vm_compute in H; discriminate H.
Qed.

(* ================================================================== *)
(** * Services and materials *)

(** C4.  For every list of line items, each item is placed in exactly one
    of the two buckets: it is a service if and only if its description,
    lowercased, contains one of "labor", "hour", "service", "time", and a
    material otherwise; each bucket keeps the items in their original
    order. *)
Theorem classification (host : Host) (d : InvoiceData)
    (u : option BusinessInfo) (c : option ClientInfo) :
  let r := runCreatePDFDocument d u c in
  let items := itemsOf (Locals.invoice r) in
  (forall it, isService it = true <-> Service it)
  /\ Locals.services r = filter isService items
  /\ Locals.materials r = filter (fun it => negb (isService it)) items
  /\ (forall it, In it items ->
      (Service it /\ In it (Locals.services r) /\ ~ In it (Locals.materials r))
      \/ (~ Service it /\ In it (Locals.materials r) /\ ~ In it (Locals.services r)))
  /\ (List.length (Locals.services r) + List.length (Locals.materials r)
      = List.length items)%nat.
Proof.
  intros r items.
  pose proof (services_eq d u c) as Hs; fold r in Hs; fold items in Hs.
  pose proof (materials_eq d u c) as Hm; fold r in Hm; fold items in Hm.
  split; [apply isService_spec|].
  split; [exact Hs|].
  split; [exact Hm|].
  split.
  - intros it Hin; rewrite Hs, Hm, !filter_In.
    destruct (isService it) eqn:E.
    + left; split; [now apply isService_spec|].
      split; [auto|]; intros [_ H]; discriminate.
    + right; split; [intros H; apply isService_spec in H; congruence|].
      split; [auto|]; intros [_ H]; discriminate.
  - rewrite Hs, Hm; apply filter_lengths.
Qed.

Lemma classification_witness :
  Service (item "2 hours labor" (Num 2) (Num 50))
  /\ In (item "2 hours labor" (Num 2) (Num 50))
       (Locals.services (@runCreatePDFDocument plainHost scenarioB None None)).
Proof.
  destruct (classification plainHost scenarioB None None)
    as (Hspec & _ & _ & Hin & _).
  destruct (Hin (item "2 hours labor" (Num 2) (Num 50)) (or_introl eq_refl))
    as [(S & I & _) | (NS & _)].
  - exact (conj S I).
  - exfalso; apply NS, Hspec; reflexivity.
Defined.

(* ================================================================== *)
(** * Amounts and subtotals *)



(* ================================================================== *)
(** * The arguments *)

(** C9.  For every call, the record is [invoiceData.invoice] when the first
    argument has one and the first argument itself otherwise; business
    information in [invoiceData.user] comes before the [user] argument and
    client information in [invoiceData.client] before the [client]
    argument, with the empty object last; the document depends on the
    arguments through these three only, and the saved file is named after
    the invoice number of the same record. *)
Theorem arguments_unwrapped (host : Host) (pdf : Instance) (d : InvoiceData)
    (u : option BusinessInfo) (c : option ClientInfo) :
  let r := runCreatePDFDocument d u c in
  Locals.invoice r
  = match Data.invoice d with
    | Some inv => inv
    | None => Data.own d
    end
  /\ Locals.businessInfo r
     = match Data.user d, u with
       | Some b, _ => b
       | None, Some b => b
       | None, None => emptyBusinessInfo
       end
  /\ Locals.clientInfo r
     = match Data.client d, c with
       | Some k, _ => k
       | None, Some k => k
       | None, None => emptyClientInfo
       end
  /\ createPDFDocument d u c
     = createPDFDocument
         {| Data.invoice := None;
            Data.user := Some (Locals.businessInfo r);
            Data.client := Some (Locals.clientInfo r);
            Data.own := Locals.invoice r |}
         None None
  /\ fileName (generatePDF pdf d u c)
     = ("Invoice-" ++ JSString.orElse (invoiceNumber (Locals.invoice r)) "Draft"
        ++ ".pdf")%string.
Proof.
  intros r; conjuncts.
  - reflexivity.
  - unfold r, runCreatePDFDocument; cbn [Locals.businessInfo].
    now destruct (Data.user d), u.
  - unfold r, runCreatePDFDocument; cbn [Locals.clientInfo].
    now destruct (Data.client d), c.
  - reflexivity.
  - reflexivity.
Qed.

(* ================================================================== *)
(** * Numeric fields that are no numbers *)

Lemma nonempty_string_kept (s : string) : s <> ""%string -> orZero (Str s) = Str s.
Proof.
  intros H; unfold orZero, toBoolean.
  destruct (String.eqb_spec s ""); [contradiction | reflexivity].
Qed.

Lemma malformed_field (s : string) :
  s <> ""%string -> malformedNumber s -> parseFloat (orZero (Str s)) = nan.
Proof. intros H M; rewrite (nonempty_string_kept s H); exact M. Qed.

Lemma malformed_amount (it : LineItem) (s : string) :
  quantity it = Str s \/ rate it = Str s ->
  s <> ""%string -> malformedNumber s -> itemAmount it = nan.
Proof.
  intros [E|E] H M; unfold itemAmount; rewrite E, (malformed_field s H M).
  - apply mul_nan_l.
  - apply mul_nan_r.
Qed.

Lemma sum_of_nan (l : list LineItem) (it : LineItem) :
  In it l -> itemAmount it = nan -> sum (map itemAmount l) = nan.
Proof.
  intros H E; apply sum_with_nan.
  rewrite <- E; now apply in_map.
Qed.

(** C5, as amended.  For every line item whose quantity or rate is absent,
    null, zero or the empty string, the value used for that field is 0.  A
    non-empty string that does not parse as a number gives NaN, not 0: the
    amount of the item and the subtotal are then NaN and the subtotal is
    printed as $NaN.  In either case the document is built to its end. *)
Theorem malformed_numbers (host : Host) (d : InvoiceData)
    (u : option BusinessInfo) (c : option ClientInfo) :
  let r := runCreatePDFDocument d u c in
  (forall v, toBoolean v = false -> parseFloat (orZero v) = 0%float)
  /\ (forall s, s <> ""%string -> malformedNumber s ->
      parseFloat (orZero (Str s)) = nan)
  /\ (forall it s,
      In it (itemsOf (Locals.invoice r)) ->
      quantity it = Str s \/ rate it = Str s ->
      s <> ""%string -> malformedNumber s ->
      itemAmount it = nan
      /\ Locals.subtotal r = nan
      /\ printedSubtotal (Locals.doc r) = Some "$NaN"%string)
  /\ In (text "Thank you for your business!" 105 (pageHeight - 20) AlignCenter)
       (Locals.doc r).
Proof.
  intros r.
  split; [exact falsy_is_zero|].
  split; [exact malformed_field|].
  split; [|exact (proj2 (header_and_footer d u c))].
  intros it s Hin Hf Hs M.
  pose proof (malformed_amount it s Hf Hs M) as Ha.
  assert (HS : Locals.subtotal r = nan).
  { unfold r; rewrite subtotal_eq, servicesSubtotal_eq, materialsSubtotal_eq.
    rewrite services_eq, materials_eq; fold r.
    destruct (isService it) eqn:E.
    - rewrite (sum_of_nan (filter isService _) it); [apply add_nan_l| |exact Ha].
      apply filter_In; auto.
    - rewrite (sum_of_nan (filter (fun x => negb (isService x)) _) it);
        [apply add_nan_r| |exact Ha].
      apply filter_In; rewrite E; auto. }
  split; [exact Ha|].
  split; [exact HS|].
  unfold r; rewrite printed_subtotal; fold r; rewrite HS.
  vm_compute; reflexivity.
Qed.

Lemma malformed_numbers_witness :
  printedSubtotal (Locals.doc (@runCreatePDFDocument plainHost malformed None None))
  = Some "$NaN"%string.
Proof.
  refine (proj2 (proj2 (proj1 (proj2 (proj2
            (malformed_numbers plainHost malformed None None)))
          (item "Copper pipe" (Str "abc") (Num 25)) "abc" _ _ _ _))).
  - left; reflexivity.
  - left; reflexivity.
  - discriminate.
  - vm_compute; reflexivity.
Defined.

(** C5, as stated, fails on the quantity "abc": it does not parse as a
    number, and the value used for it is NaN, which is not 0; the row shows
    NaN for the quantity and $NaN for the amount. *)
Lemma malformed_quantity_is_not_zero :
  malformedNumber "abc"
  /\ map quantity
       (itemsOf (Locals.invoice (@runCreatePDFDocument plainHost malformed None None)))
     = [Str "abc"]
  /\ parseFloat (orZero (Str "abc")) <> 0%float
  /\ map bodyOf
       (tables (Locals.doc (@runCreatePDFDocument plainHost malformed None None)))
     = [[["Copper pipe"; "NaN"; "$25.00"; "$NaN"]%string]].
Proof.
  split; [vm_compute; reflexivity|].
  split; [reflexivity|].
  split; [apply float_neq; vm_compute; discriminate|].
  vm_compute; reflexivity.
Qed.

(* ================================================================== *)
(** * The builtins and the composer on sample values *)

Example parseFloat_samples :
  map JSNumber.parseFloatString
    ["95"; "  12.50 USD"; "-.5e1"; "1e3"; "0x1A"; "Infinity"; "-0"]%string
  = [95; 12.5; -5; 1000; 0; infinity; -0]%float
  /\ map (fun s => PrimFloat.is_nan (JSNumber.parseFloatString s))
       [""; "abc"; "."; "$5"; "e5"; "undefined"]%string
     = [true; true; true; true; true; true].
Proof. split; vm_compute; reflexivity. Qed.

Example toFixed_samples :
  map JSNumber.toFixed2 [0; -0; 1.005; 2.5; 0.125; 10.235; 99.995; -1.5; 1e21; nan]%float
  = ["0.00"; "0.00"; "1.00"; "2.50"; "0.13"; "10.23"; "100.00"; "-1.50"; "1e+21";
     "NaN"]%string.
Proof. vm_compute; reflexivity. Qed.

Example toString_samples :
  map JSNumber.numberToString
    [2; 0.1; 0.30000000000000004; 1e21; 1e-7; 0.000001; 123456789012345680000;
     -2.5; leastPositive; infinity]%float
  = ["2"; "0.1"; "0.30000000000000004"; "1e+21"; "1e-7"; "0.000001";
     "123456789012345680000"; "-2.5"; "5e-324"; "Infinity"]%string.
Proof. vm_compute; reflexivity. Qed.

Example btoa_sample :
  JSString.btoa "Many hands make light work." = "TWFueSBoYW5kcyBtYWtlIGxpZ2h0IHdvcmsu"%string.
Proof. reflexivity. Qed.

(** Scenario B of the specification: the item is a service of amount
    100.00, the services subtotal is 100.00, the tax 10.00 and the total
    110.00. *)
Example scenarioB_totals :
  let r := @runCreatePDFDocument plainHost scenarioB None None in
  Locals.services r = [item "2 hours labor" (Num 2) (Num 50)]
  /\ Locals.materials r = []
  /\ map bodyOf (tables (Locals.doc r))
     = [[["2 hours labor"; "2"; "$50.00"; "$100.00"]%string]]
  /\ printedSubtotal (Locals.doc r) = Some "$100.00"%string
  /\ printedTax (Locals.doc r) = Some "$10.00"%string
  /\ printedTotal (Locals.doc r) = Some "$110.00"%string.
Proof. cbv zeta; conjuncts; vm_compute; reflexivity. Qed.

(** Scenario D: with no business information the title is "Invoice" and the
    footer has only its first line. *)
Example scenarioD_header_and_footer :
  let d := @createPDFDocument plainHost scenarioA None None in
  nth_error d 3 = Some (text "Invoice" 20 25 AlignDefault)
  /\ last d (setFontSize 0)
     = text "Thank you for your business!" 105 277 AlignCenter.
Proof. cbv zeta; conjuncts; vm_compute; reflexivity. Qed.

(* ================================================================== *)
(** * What each block adds to the document *)

Lemma emitted_eq (f : step) (st : layout) (l : document) :
  doc (f st) = doc st ++ l -> emitted f st = l.
Proof.
  unfold emitted; intros ->.
  rewrite skipn_app, skipn_all, Nat.sub_diag; reflexivity.
Qed.

Lemma adds_emitted (P : call -> bool) (f : step) (st : layout) :
  adds P f ->
  doc (f st) = doc st ++ emitted f st /\ forallb P (emitted f st) = true.
Proof.
  intros H; destruct (H st) as (l & e & p).
  rewrite (emitted_eq f st l e); auto.
Qed.

Lemma textsAt_app (x : float) (l1 l2 : document) :
  textsAt x (l1 ++ l2) = textsAt x l1 ++ textsAt x l2.
Proof. apply flat_map_app. Qed.

Lemma textsAt_stacked (x : float) (lines : list string) (y : float) :
  textsAt x (stacked lines y) = onColumn 20 x lines.
Proof.
  unfold onColumn; revert y; induction lines as [|l lines IH]; intros y.
  - now destruct (20 =? x)%float.
  - cbn [stacked].
    change (text l 20 y AlignDefault :: stacked lines (y + 5))
      with ([text l 20 y AlignDefault] ++ stacked lines (y + 5)).
    rewrite textsAt_app, IH; unfold textsAt; cbn [flat_map app].
    now destruct (20 =? x)%float.
Qed.

(** [descriptionLines.forEach(line => { doc.text(line, 20, yPos); yPos += 5 })]. *)
Lemma forEach_stacked (F : string -> step) (lines : list string) (st : layout) :
  (forall l s,
      F l s = {| doc := doc s ++ [text l 20 (yPos s) AlignDefault];
                 yPos := (yPos s + 5)%float |}) ->
  forEach lines F st
  = {| doc := doc st ++ stacked lines (yPos st); yPos := stackEnd lines (yPos st) |}.
Proof.
  intros HF; unfold forEach, stackEnd; revert st.
  induction lines as [|l lines IH]; intros [D Y].
  - cbn; now rewrite app_nil_r.
  - cbn [fold_left stacked]; rewrite HF, IH; cbn [doc yPos].
    now rewrite <- app_assoc.
Qed.

(** Computes the comparisons of two columns. *)
Ltac columns :=
  unfold onColumn;
  repeat match goal with
         | |- context [(?a =? ?b)%float] =>
             let v := eval vm_compute in (a =? b)%float in
             lazymatch v with
             | true => change (a =? b)%float with true
             | false => change (a =? b)%float with false
             end
         end;
  cbv iota.

Section Emitted.

Context {host : Host}.

Lemma header_emitted (b : BusinessInfo) (st : layout) :
  emitted (headerBlock b) st
  = [ setFontSize 24;
      setTextColor darkGray;
      setFont "helvetica" "bold";
      text (JSString.orElse (businessName b) "Invoice") 20 25 AlignDefault;
      setFontSize 10;
      setFont "helvetica" "normal";
      setTextColor lightGray ]
    ++ stacked (presentLines [businessAddress b; businessPhone b; businessEmail b]) 32.
Proof.
  apply emitted_eq; destruct st as [D Y].
  cbv [headerBlock optionalLine seq when emit emitAt setY advance skip doc yPos].
  unfold presentLines; cbn [flat_map].
  destruct (JSString.truthy (businessAddress b)),
           (JSString.truthy (businessPhone b)),
           (JSString.truthy (businessEmail b));
    rewrite <- ?app_assoc; reflexivity.
Qed.

Lemma header_cursor (b : BusinessInfo) (st : layout) :
  yPos (headerBlock b st)
  = stackEnd (presentLines [businessAddress b; businessPhone b; businessEmail b]) 32.
Proof.
  destruct st as [D Y].
  cbv [headerBlock optionalLine seq when emit emitAt setY advance skip doc yPos].
  unfold presentLines; cbn [flat_map].
  destruct (JSString.truthy (businessAddress b)),
           (JSString.truthy (businessPhone b)),
           (JSString.truthy (businessEmail b));
    reflexivity.
Qed.

Lemma header_texts (b : BusinessInfo) (st : layout) (x : float) :
  textsAt x (emitted (headerBlock b) st)
  = onColumn 20 x
      (JSString.orElse (businessName b) "Invoice"
       :: presentLines [businessAddress b; businessPhone b; businessEmail b]).
Proof.
  rewrite header_emitted, textsAt_app, textsAt_stacked.
  unfold onColumn, textsAt; cbn [flat_map app].
  now destruct (20 =? x)%float.
Qed.

Lemma metadata_emitted (inv : Invoice) (st : layout) :
  emitted (metadataBlock inv) st
  = [ setFontSize 10;
      setTextColor darkGray;
      setFont "helvetica" "bold";
      text "INVOICE" 150 25 AlignDefault;
      setFont "helvetica" "normal";
      setFontSize 9;
      text ("Invoice #: " ++ JSString.orElse (invoiceNumber inv) "N/A") 150 32
        AlignDefault ]
    ++ (if JSString.truthy (issueDate inv)
        then [ text ("Issue Date: "
                     ++ toLocaleDateString (JSString.orElse (issueDate inv) ""))
                 150 37 AlignDefault ]
        else [])
    ++ (if JSString.truthy (dueDate inv)
        then [ text ("Due Date: "
                     ++ toLocaleDateString (JSString.orElse (dueDate inv) ""))
                 150 42 AlignDefault ]
        else [])
    ++ [ setTextColor primaryColor;
         setFont "helvetica" "bold";
         text ("Status: " ++ JSString.toUpperCase (JSString.orElse (status inv) "draft"))
           150 47 AlignDefault ].
Proof.
  apply emitted_eq; destruct st as [D Y].
  cbv [metadataBlock seq when emit doc yPos].
  destruct (JSString.truthy (issueDate inv)), (JSString.truthy (dueDate inv));
    rewrite <- ?app_assoc; reflexivity.
Qed.

Lemma metadata_cursor (inv : Invoice) (st : layout) :
  yPos (metadataBlock inv st) = yPos st.
Proof.
  destruct st as [D Y].
  cbv [metadataBlock seq when emit doc yPos].
  now destruct (JSString.truthy (issueDate inv)), (JSString.truthy (dueDate inv)).
Qed.

Lemma metadata_texts (inv : Invoice) (st : layout) (x : float) :
  textsAt x (emitted (metadataBlock inv) st)
  = onColumn 150 x
      ([ "INVOICE"%string;
         ("Invoice #: " ++ JSString.orElse (invoiceNumber inv) "N/A")%string ]
       ++ (if JSString.truthy (issueDate inv)
           then [ ("Issue Date: "
                   ++ toLocaleDateString (JSString.orElse (issueDate inv) ""))%string ]
           else [])
       ++ (if JSString.truthy (dueDate inv)
           then [ ("Due Date: "
                   ++ toLocaleDateString (JSString.orElse (dueDate inv) ""))%string ]
           else [])
       ++ [ ("Status: "
             ++ JSString.toUpperCase (JSString.orElse (status inv) "draft"))%string ]).
Proof.
  rewrite metadata_emitted.
  destruct (JSString.truthy (issueDate inv)), (JSString.truthy (dueDate inv));
    unfold onColumn, textsAt; cbn [flat_map app];
    now destruct (150 =? x)%float.
Qed.

Lemma billTo_label (cl : ClientInfo) (st : layout) :
  exists rest,
    emitted (billToBlock cl) st
    = [ setFontSize 10;
        setTextColor darkGray;
        setFont "helvetica" "bold";
        text "BILL TO:" 20 (JSNumber.mathMax (yPos st + 10) 55) AlignDefault ]
      ++ rest.
Proof.
  destruct st as [D Y].
  assert (exists rest,
             doc (billToBlock cl {| doc := D; yPos := Y |})
             = D ++ [ setFontSize 10;
                      setTextColor darkGray;
                      setFont "helvetica" "bold";
                      text "BILL TO:" 20 (JSNumber.mathMax (Y + 10) 55) AlignDefault ]
                 ++ rest) as (rest & e).
  { cbv [billToBlock optionalLine seq when emit emitAt setY advance skip doc yPos].
    destruct (JSString.truthy (name cl)),
             (JSString.truthy (email cl)),
             (JSString.truthy (address cl));
      rewrite <- ?app_assoc; cbn [app]; eexists; reflexivity. }
  exists rest; apply emitted_eq; exact e.
Qed.

Lemma billTo_texts (cl : ClientInfo) (st : layout) (x : float) :
  textsAt x (emitted (billToBlock cl) st)
  = onColumn 20 x
      ("BILL TO:"%string :: presentLines [name cl; email cl; address cl]).
Proof.
  destruct st as [D Y].
  unfold presentLines; cbn [flat_map].
  destruct (JSString.truthy (name cl)) eqn:En,
           (JSString.truthy (email cl)) eqn:Ee,
           (JSString.truthy (address cl)) eqn:Ea;
    (erewrite emitted_eq;
     [| cbv [billToBlock optionalLine seq when emit emitAt setY advance skip doc yPos];
        rewrite En, Ee, Ea, <- ?app_assoc; cbn [app]; reflexivity ]);
    unfold onColumn, textsAt; cbn [flat_map app];
    now destruct (20 =? x)%float.
Qed.

(** The job block when the record has neither a title nor a description. *)
Lemma job_absent (inv : Invoice) (st : layout) :
  JSString.truthy (invoiceTitle inv) = false ->
  JSString.truthy (invoiceDescription inv) = false ->
  jobBlock inv st = {| doc := doc st; yPos := (yPos st + 10)%float |}.
Proof.
  intros Ht Hd; destruct st as [D Y].
  unfold jobBlock; rewrite Ht, Hd.
  cbv [seq when emit emitAt advance doc yPos orb]; reflexivity.
Qed.

(** Runs the job block once the two tests of lines 216 and 225 are known. *)
Ltac run_job Et Ed :=
  unfold jobBlock; rewrite Et, Ed;
  cbv [seq when emit emitAt advance doc yPos orb];
  rewrite ?forEach_stacked by (intros; reflexivity);
  cbn [doc yPos]; rewrite <- ?app_assoc.

(** The job block in full: the calls before the description and the
    description's lines. *)
Lemma job_emitted (inv : Invoice) (st : layout) :
  exists before lines y,
    emitted (jobBlock inv) st = before ++ stacked lines y
    /\ yPos (jobBlock inv st) = (stackEnd lines y + 10)%float
    /\ (forall x,
          textsAt x before
          = onColumn 20 x
              (if JSString.truthy (invoiceTitle inv)
               then [ "Job/Project:"%string; JSString.orElse (invoiceTitle inv) "" ]
               else []))
    /\ forallb aligned before = true
    /\ lines
       = (if JSString.truthy (invoiceDescription inv)
          then splitTextToSize (doc st ++ before)
                 (JSString.orElse (invoiceDescription inv) "") 150
          else []).
Proof.
  destruct st as [D Y].
  destruct (JSString.truthy (invoiceTitle inv)) eqn:Et,
           (JSString.truthy (invoiceDescription inv)) eqn:Ed.
  - set (before :=
           [ setFontSize 9; setTextColor lightGray; setFont "helvetica" "bold";
             text "Job/Project:" 20 (Y + 5) AlignDefault;
             setFontSize 10; setTextColor darkGray; setFont "helvetica" "normal";
             text (JSString.orElse (invoiceTitle inv) "") 20 (Y + 5 + 5) AlignDefault;
             setFontSize 9; setTextColor lightGray ]).
    exists before,
      (splitTextToSize (D ++ before) (JSString.orElse (invoiceDescription inv) "") 150),
      (Y + 5 + 5 + 5)%float.
    conjuncts.
    + apply emitted_eq; run_job Et Ed; reflexivity.
    + run_job Et Ed; reflexivity.
    + intros x; unfold onColumn, textsAt, before; cbn [flat_map app].
      now destruct (20 =? x)%float.
    + reflexivity.
    + reflexivity.
  - exists [ setFontSize 9; setTextColor lightGray; setFont "helvetica" "bold";
             text "Job/Project:" 20 (Y + 5) AlignDefault;
             setFontSize 10; setTextColor darkGray; setFont "helvetica" "normal";
             text (JSString.orElse (invoiceTitle inv) "") 20 (Y + 5 + 5) AlignDefault ],
           [], (Y + 5 + 5 + 5)%float.
    conjuncts.
    + apply emitted_eq; run_job Et Ed; reflexivity.
    + run_job Et Ed; reflexivity.
    + intros x; unfold onColumn, textsAt; cbn [flat_map app].
      now destruct (20 =? x)%float.
    + reflexivity.
    + reflexivity.
  - set (before :=
           [ setFontSize 9; setTextColor lightGray; setFont "helvetica" "bold";
             setFontSize 9; setTextColor lightGray ]).
    exists before,
      (splitTextToSize (D ++ before) (JSString.orElse (invoiceDescription inv) "") 150),
      (Y + 5)%float.
    conjuncts.
    + apply emitted_eq; run_job Et Ed; reflexivity.
    + run_job Et Ed; reflexivity.
    + intros x; unfold onColumn; now destruct (20 =? x)%float.
    + reflexivity.
    + reflexivity.
  - exists [], [], Y; conjuncts.
    + apply emitted_eq; rewrite (job_absent inv _ Et Ed); cbn; now rewrite app_nil_r.
    + now rewrite (job_absent inv _ Et Ed).
    + intros x; unfold onColumn; now destruct (20 =? x)%float.
    + reflexivity.
    + reflexivity.
Qed.

End Emitted.

Section Sections.

Context {host : Host}.

Lemma sectionBlock_calls (heading column label : string)
    (rows : list (list string)) (s : float) (st : layout) :
  doc (sectionBlock heading column label rows s st)
  = doc st ++ sectionCalls heading column label rows s (doc st) (yPos st).
Proof.
  destruct st as [D Y].
  cbv [sectionBlock sectionCalls seq emit emitAt setY advance dollars doc yPos].
  rewrite <- ?app_assoc; reflexivity.
Qed.

Lemma sectionBlock_emitted (heading column label : string)
    (rows : list (list string)) (s : float) (st : layout) :
  emitted (sectionBlock heading column label rows s) st
  = sectionCalls heading column label rows s (doc st) (yPos st).
Proof. apply emitted_eq, sectionBlock_calls. Qed.

Lemma section_emitted (heading column label : string) (items : list LineItem)
    (st : layout) :
  emitted (fun st => fst (tableSection heading column label items 0 st)) st
  = if (0 <? List.length items)%nat
    then sectionCalls heading column label
           (map (fun it => fst (rowOf it)) items) (sum (map itemAmount items))
           (doc st) (yPos st)
    else [].
Proof.
  unfold tableSection.
  destruct (0 <? List.length items)%nat.
  - rewrite mapRows_spec; cbn [fst snd].
    exact (sectionBlock_emitted heading column label _ _ st).
  - apply emitted_eq; cbn [fst]; now rewrite app_nil_r.
Qed.

Lemma sectionCalls_texts (heading column label : string)
    (rows : list (list string)) (s : float) (before : document) (y x : float) :
  textsAt x (sectionCalls heading column label rows s before y)
  = onColumn 20 x [heading] ++ onColumn 135 x [label] ++ onColumn 175 x [dollars s].
Proof.
  unfold sectionCalls, onColumn, textsAt; cbn [flat_map app].
  now destruct (20 =? x)%float, (135 =? x)%float, (175 =? x)%float.
Qed.

Lemma sectionCalls_aligned (heading column label : string)
    (rows : list (list string)) (s : float) (before : document) (y : float) :
  forallb aligned (sectionCalls heading column label rows s before y) = true.
Proof. reflexivity. Qed.

Lemma totalsCalls_texts (s t tot y x : float) :
  textsAt x (totalsCalls s t tot y)
  = onColumn 135 x ["Subtotal:"%string] ++ onColumn 175 x [dollars s]
    ++ (if (0 <? t)%float
        then onColumn 135 x ["Tax:"%string] ++ onColumn 175 x [dollars t]
        else [])
    ++ onColumn 135 x ["TOTAL:"%string] ++ onColumn 175 x [dollars tot].
Proof.
  unfold totalsCalls, onColumn, textsAt.
  destruct (0 <? t)%float; cbn [flat_map app];
    now destruct (135 =? x)%float, (175 =? x)%float.
Qed.

Lemma totalsCalls_aligned (s t tot y : float) :
  forallb aligned (totalsCalls s t tot y) = true.
Proof. unfold totalsCalls; now destruct (0 <? t)%float. Qed.

Lemma footer_emitted (b : BusinessInfo) (st : layout) :
  emitted (footerBlock b) st
  = [ setFontSize 9;
      setTextColor lightGray;
      setFont "helvetica" "italic";
      text "Thank you for your business!" 105 (pageHeight - 20) AlignCenter ]
    ++ (if JSString.truthy (businessName b)
        then [ setFont "helvetica" "normal";
               text ("Generated by " ++ JSString.orElse (businessName b) "")%string
                 105 (pageHeight - 15) AlignCenter ]
        else []).
Proof.
  apply emitted_eq; destruct st as [D Y].
  cbv [footerBlock seq when emit doc yPos].
  destruct (JSString.truthy (businessName b)); rewrite <- ?app_assoc; reflexivity.
Qed.

Lemma footer_texts (b : BusinessInfo) (st : layout) (x : float) :
  textsAt x (emitted (footerBlock b) st)
  = onColumn 105 x
      ("Thank you for your business!"%string
       :: (if JSString.truthy (businessName b)
           then [ ("Generated by " ++ JSString.orElse (businessName b) "")%string ]
           else [])).
Proof.
  rewrite footer_emitted.
  destruct (JSString.truthy (businessName b));
    unfold onColumn, textsAt; cbn [flat_map app];
    now destruct (105 =? x)%float.
Qed.

Lemma headerBlock_aligned (b : BusinessInfo) : adds aligned (headerBlock b).
Proof. unfold headerBlock, optionalLine; adds_steps. Qed.

Lemma metadataBlock_aligned (inv : Invoice) : adds aligned (metadataBlock inv).
Proof. unfold metadataBlock; adds_steps. Qed.

Lemma billToBlock_aligned (cl : ClientInfo) : adds aligned (billToBlock cl).
Proof. unfold billToBlock, optionalLine; adds_steps. Qed.

Lemma jobBlock_aligned (inv : Invoice) : adds aligned (jobBlock inv).
Proof.
  unfold jobBlock; adds_steps.
  apply (adds_reading aligned
           (fun st => splitTextToSize (doc st)
                        (JSString.orElse (invoiceDescription inv) "") 150)
           (fun lines => forEach lines _)).
  intros lines; apply adds_forEach; intros l; adds_steps.
Qed.

Lemma footerBlock_aligned (b : BusinessInfo) : adds aligned (footerBlock b).
Proof. unfold footerBlock; adds_steps. Qed.

Lemma section_adds (heading column label : string) (items : list LineItem) :
  adds aligned (fun st => fst (tableSection heading column label items 0 st)).
Proof.
  intros st; unfold tableSection.
  destruct (0 <? List.length items)%nat; cbn [fst].
  - eexists; split; [apply sectionBlock_calls | apply sectionCalls_aligned].
  - exists []; split; [now rewrite app_nil_r | reflexivity].
Qed.

End Sections.

(* ================================================================== *)
(** * The document, block by block *)

Section Parts.

Context {host : Host}.

Variables (d : InvoiceData) (u : option BusinessInfo) (c : option ClientInfo).

Local Abbreviation r := (runCreatePDFDocument d u c).

Lemma doc_afterBillTo :
  doc (afterBillTo r)
  = emitted (headerBlock (Locals.businessInfo r)) atStart
    ++ emitted (metadataBlock (Locals.invoice r)) (afterHeader r)
    ++ emitted (billToBlock (Locals.clientInfo r)) (afterMetadata r).
Proof.
  unfold afterBillTo at 1.
  rewrite (proj1 (adds_emitted _ _ (afterMetadata r) (billToBlock_aligned _))).
  unfold afterMetadata at 1.
  rewrite (proj1 (adds_emitted _ _ (afterHeader r) (metadataBlock_aligned _))).
  unfold afterHeader at 1.
  rewrite (proj1 (adds_emitted _ _ atStart (headerBlock_aligned _))).
  cbn [doc atStart app]; now rewrite <- !app_assoc.
Qed.

Lemma doc_afterJob :
  doc (afterJob r)
  = doc (afterBillTo r) ++ emitted (jobBlock (Locals.invoice r)) (afterBillTo r).
Proof.
  unfold afterJob at 1.
  exact (proj1 (adds_emitted _ _ (afterBillTo r) (jobBlock_aligned _))).
Qed.

Lemma doc_afterServices :
  doc (afterServices r)
  = doc (afterJob r) ++ emitted (servicesSection r) (afterJob r).
Proof.
  unfold afterServices at 1.
  exact (proj1 (adds_emitted _ (servicesSection r) (afterJob r)
                  (section_adds _ _ _ _))).
Qed.

Lemma doc_afterMaterials :
  doc (afterMaterials r)
  = doc (afterServices r) ++ emitted (materialsSection r) (afterServices r).
Proof.
  unfold afterMaterials at 1.
  exact (proj1 (adds_emitted _ (materialsSection r) (afterServices r)
                  (section_adds _ _ _ _))).
Qed.

Lemma doc_afterFooter :
  Locals.doc r
  = doc (afterMaterials r)
    ++ totalsCalls (Locals.subtotal r) (Locals.taxAmount r) (Locals.total r)
         (yPos (afterMaterials r))
    ++ emitted (footerBlock (Locals.businessInfo r)) (afterTotals r).
Proof.
  change (Locals.doc r) with (doc (afterFooter r)); unfold afterFooter.
  rewrite (proj1 (adds_emitted _ _ (afterTotals r) (footerBlock_aligned _))).
  unfold afterTotals at 1; rewrite totalsBlock_doc.
  now rewrite <- app_assoc.
Qed.

(** The document is what the eight blocks add, one after the other. *)
Lemma document_parts :
  Locals.doc r
  = emitted (headerBlock (Locals.businessInfo r)) atStart
    ++ emitted (metadataBlock (Locals.invoice r)) (afterHeader r)
    ++ emitted (billToBlock (Locals.clientInfo r)) (afterMetadata r)
    ++ emitted (jobBlock (Locals.invoice r)) (afterBillTo r)
    ++ emitted (servicesSection r) (afterJob r)
    ++ emitted (materialsSection r) (afterServices r)
    ++ totalsCalls (Locals.subtotal r) (Locals.taxAmount r) (Locals.total r)
         (yPos (afterMaterials r))
    ++ emitted (footerBlock (Locals.businessInfo r)) (afterTotals r).
Proof.
  rewrite doc_afterFooter, doc_afterMaterials, doc_afterServices, doc_afterJob,
    doc_afterBillTo.
  now rewrite <- !app_assoc.
Qed.

(** Every text of the document stands at one of the five columns. *)
Lemma document_aligned : forallb aligned (Locals.doc r) = true.
Proof.
  rewrite document_parts, !forallb_app.
  repeat match goal with
         | |- (_ && _)%bool = true => apply andb_true_iff; split
         end.
  - exact (proj2 (adds_emitted aligned _ atStart (headerBlock_aligned _))).
  - exact (proj2 (adds_emitted aligned _ (afterHeader r) (metadataBlock_aligned _))).
  - exact (proj2 (adds_emitted aligned _ (afterMetadata r) (billToBlock_aligned _))).
  - exact (proj2 (adds_emitted aligned _ (afterBillTo r) (jobBlock_aligned _))).
  - exact (proj2 (adds_emitted aligned (servicesSection r) (afterJob r)
                    (section_adds _ _ _ _))).
  - exact (proj2 (adds_emitted aligned (materialsSection r) (afterServices r)
                    (section_adds _ _ _ _))).
  - apply totalsCalls_aligned.
  - exact (proj2 (adds_emitted aligned _ (afterTotals r) (footerBlock_aligned _))).
Qed.

(** The cursor when the bill-to block starts. *)
Lemma cursor_afterMetadata :
  yPos (afterMetadata r)
  = stackEnd
      (presentLines [ businessAddress (Locals.businessInfo r);
                      businessPhone (Locals.businessInfo r);
                      businessEmail (Locals.businessInfo r) ]) 32.
Proof. unfold afterMetadata, afterHeader; now rewrite metadata_cursor, header_cursor. Qed.

(** The texts of the document at any column, block by block.  [shown] is
    the document as it stands when the description is wrapped. *)
Lemma document_texts (x : float) :
  exists shown,
    textsAt x (Locals.doc r)
    = onColumn 20 x
        (JSString.orElse (businessName (Locals.businessInfo r)) "Invoice"
         :: presentLines [ businessAddress (Locals.businessInfo r);
                           businessPhone (Locals.businessInfo r);
                           businessEmail (Locals.businessInfo r) ])
      ++ onColumn 150 x
           ([ "INVOICE"%string;
              ("Invoice #: "
               ++ JSString.orElse (invoiceNumber (Locals.invoice r)) "N/A")%string ]
            ++ (if JSString.truthy (issueDate (Locals.invoice r))
                then [ ("Issue Date: "
                        ++ toLocaleDateString
                             (JSString.orElse (issueDate (Locals.invoice r)) ""))%string ]
                else [])
            ++ (if JSString.truthy (dueDate (Locals.invoice r))
                then [ ("Due Date: "
                        ++ toLocaleDateString
                             (JSString.orElse (dueDate (Locals.invoice r)) ""))%string ]
                else [])
            ++ [ ("Status: "
                  ++ JSString.toUpperCase
                       (JSString.orElse (status (Locals.invoice r)) "draft"))%string ])
      ++ onColumn 20 x
           ("BILL TO:"%string
            :: presentLines [ name (Locals.clientInfo r);
                              email (Locals.clientInfo r);
                              address (Locals.clientInfo r) ])
      ++ (onColumn 20 x
            (if JSString.truthy (invoiceTitle (Locals.invoice r))
             then [ "Job/Project:"%string;
                    JSString.orElse (invoiceTitle (Locals.invoice r)) "" ]
             else [])
          ++ onColumn 20 x
               (if JSString.truthy (invoiceDescription (Locals.invoice r))
                then splitTextToSize shown
                       (JSString.orElse (invoiceDescription (Locals.invoice r)) "") 150
                else []))
      ++ (if (0 <? List.length (Locals.services r))%nat
          then onColumn 20 x ["SERVICES"%string]
               ++ onColumn 135 x ["Services Subtotal:"%string]
               ++ onColumn 175 x [dollars (Locals.servicesSubtotal r)]
          else [])
      ++ (if (0 <? List.length (Locals.materials r))%nat
          then onColumn 20 x ["MATERIALS"%string]
               ++ onColumn 135 x ["Materials Subtotal:"%string]
               ++ onColumn 175 x [dollars (Locals.materialsSubtotal r)]
          else [])
      ++ (onColumn 135 x ["Subtotal:"%string]
          ++ onColumn 175 x [dollars (Locals.subtotal r)]
          ++ (if (0 <? Locals.taxAmount r)%float
              then onColumn 135 x ["Tax:"%string]
                   ++ onColumn 175 x [dollars (Locals.taxAmount r)]
              else [])
          ++ onColumn 135 x ["TOTAL:"%string]
          ++ onColumn 175 x [dollars (Locals.total r)])
      ++ onColumn 105 x
           ("Thank you for your business!"%string
            :: (if JSString.truthy (businessName (Locals.businessInfo r))
                then [ ("Generated by "
                        ++ JSString.orElse (businessName (Locals.businessInfo r)) "")%string ]
                else [])).
Proof.
  destruct (job_emitted (Locals.invoice r) (afterBillTo r))
    as (before & lines & y & e & _ & tb & _ & el).
  exists (doc (afterBillTo r) ++ before).
  rewrite document_parts, !textsAt_app.
  rewrite e, textsAt_app, tb, textsAt_stacked, el.
  rewrite header_texts, metadata_texts, billTo_texts, footer_texts, totalsCalls_texts.
  unfold servicesSection, materialsSection; rewrite !section_emitted.
  rewrite (servicesSubtotal_eq d u c), (materialsSubtotal_eq d u c).
  destruct (0 <? List.length (Locals.services r))%nat,
           (0 <? List.length (Locals.materials r))%nat;
    rewrite ?sectionCalls_texts; reflexivity.
Qed.

(** The description is wrapped against the document as it stands, and its
    lines are stacked right after it. *)
Lemma description_place :
  JSString.truthy (invoiceDescription (Locals.invoice r)) = true ->
  exists shown y rest,
    Locals.doc r
    = shown
      ++ stacked
           (splitTextToSize shown
              (JSString.orElse (invoiceDescription (Locals.invoice r)) "") 150) y
      ++ rest.
Proof.
  intros Hd.
  destruct (job_emitted (Locals.invoice r) (afterBillTo r))
    as (before & lines & y & e & _ & _ & _ & el).
  rewrite Hd in el.
  exists (doc (afterBillTo r) ++ before), y,
    (emitted (servicesSection r) (afterJob r)
     ++ emitted (materialsSection r) (afterServices r)
     ++ totalsCalls (Locals.subtotal r) (Locals.taxAmount r) (Locals.total r)
          (yPos (afterMaterials r))
     ++ emitted (footerBlock (Locals.businessInfo r)) (afterTotals r)).
  rewrite doc_afterFooter, doc_afterMaterials, doc_afterServices, doc_afterJob, e, el.
  now rewrite <- !app_assoc.
Qed.

End Parts.

(* ================================================================== *)
(** * The text of the document, column by column *)

Lemma toUpperCase_noLowerCase (s : string) :
  noLowerCase (JSString.toUpperCase s) = true.
Proof.
  unfold noLowerCase, JSString.toUpperCase.
  induction s as [|a s IH]; [reflexivity|].
  cbn [JSString.mapChars allChars]; rewrite IH, andb_true_r.
  destruct a as [[|] [|] [|] [|] [|] [|] [|] [|]]; reflexivity.
Qed.

(** X1.  The left margin of the document (column 20) holds, in this order:
    the business name, or "Invoice" when there is none; the business
    address, phone and e-mail that are there; "BILL TO:"; the client's
    name, e-mail and address that are there; "Job/Project:" and the title
    when the record has a title; the lines into which jsPDF wraps the
    description when the record has one; "SERVICES" when there are
    services and "MATERIALS" when there are materials.  A property that is
    absent or empty leaves no line behind it. *)
Theorem left_column (host : Host) (d : InvoiceData)
    (u : option BusinessInfo) (c : option ClientInfo) :
  let r := runCreatePDFDocument d u c in
  exists shown,
    textsAt 20 (createPDFDocument d u c)
    = [ JSString.orElse (businessName (Locals.businessInfo r)) "Invoice" ]
      ++ presentLines [ businessAddress (Locals.businessInfo r);
                        businessPhone (Locals.businessInfo r);
                        businessEmail (Locals.businessInfo r) ]
      ++ [ "BILL TO:"%string ]
      ++ presentLines [ name (Locals.clientInfo r);
                        email (Locals.clientInfo r);
                        address (Locals.clientInfo r) ]
      ++ (if JSString.truthy (invoiceTitle (Locals.invoice r))
          then [ "Job/Project:"%string;
                 JSString.orElse (invoiceTitle (Locals.invoice r)) "" ]
          else [])
      ++ (if JSString.truthy (invoiceDescription (Locals.invoice r))
          then splitTextToSize shown
                 (JSString.orElse (invoiceDescription (Locals.invoice r)) "") 150
          else [])
      ++ (if (0 <? List.length (Locals.services r))%nat then [ "SERVICES"%string ] else [])
      ++ (if (0 <? List.length (Locals.materials r))%nat then [ "MATERIALS"%string ] else []).
Proof.
  intros r; subst r; unfold createPDFDocument.
  destruct (document_texts d u c 20) as (shown & e).
  exists shown; rewrite e; columns.
  destruct (0 <? List.length (Locals.services (runCreatePDFDocument d u c)))%nat,
           (0 <? List.length (Locals.materials (runCreatePDFDocument d u c)))%nat,
           (0 <? Locals.taxAmount (runCreatePDFDocument d u c))%float;
    cbn [app]; rewrite <- ?app_assoc; cbn [app]; rewrite ?app_nil_r; reflexivity.
Qed.

(** X2.  The invoice data (column 150) is, in this order: "INVOICE"; the
    invoice number, or "N/A" when the record has none; the issue date and
    the due date, each only when the record has it, as the host's locale
    prints it; and the status in upper case, "DRAFT" when the record has
    none.  The status line holds no lower-case letter after "Status: ". *)
Theorem metadata_column (host : Host) (d : InvoiceData)
    (u : option BusinessInfo) (c : option ClientInfo) :
  let inv := Locals.invoice (runCreatePDFDocument d u c) in
  let shownStatus := JSString.toUpperCase (JSString.orElse (status inv) "draft") in
  textsAt 150 (createPDFDocument d u c)
  = [ "INVOICE"%string;
      ("Invoice #: " ++ JSString.orElse (invoiceNumber inv) "N/A")%string ]
    ++ (if JSString.truthy (issueDate inv)
        then [ ("Issue Date: "
                ++ toLocaleDateString (JSString.orElse (issueDate inv) ""))%string ]
        else [])
    ++ (if JSString.truthy (dueDate inv)
        then [ ("Due Date: "
                ++ toLocaleDateString (JSString.orElse (dueDate inv) ""))%string ]
        else [])
    ++ [ ("Status: " ++ shownStatus)%string ]
  /\ noLowerCase shownStatus = true
  /\ (JSString.truthy (status inv) = false -> shownStatus = "DRAFT"%string).
Proof.
  intros inv shownStatus; subst inv shownStatus; unfold createPDFDocument.
  conjuncts.
  - destruct (document_texts d u c 150) as (shown & e).
    rewrite e; columns.
    destruct (0 <? List.length (Locals.services (runCreatePDFDocument d u c)))%nat,
             (0 <? List.length (Locals.materials (runCreatePDFDocument d u c)))%nat,
             (0 <? Locals.taxAmount (runCreatePDFDocument d u c))%float;
      cbn [app]; rewrite <- ?app_assoc; cbn [app]; rewrite ?app_nil_r; reflexivity.
  - apply toUpperCase_noLowerCase.
  - destruct (status (Locals.invoice (runCreatePDFDocument d u c))) as [[|a s]|];
      [reflexivity | discriminate | reflexivity].
Qed.

Lemma metadata_column_witness :
  let inv := Locals.invoice (@runCreatePDFDocument plainHost scenarioB None None) in
  JSString.truthy (status inv) = false
  /\ textsAt 150 (@createPDFDocument plainHost scenarioB None None)
     = [ "INVOICE"%string; "Invoice #: N/A"%string; "Status: DRAFT"%string ].
Proof.
  split; [reflexivity|].
  destruct (metadata_column plainHost scenarioB None None) as (e & _ & s).
  rewrite e, (s eq_refl); reflexivity.
Defined.

(** X3.  The labels (column 135) and the amounts (column 175) of the
    document pair up line by line: the services subtotal when there are
    services, the materials subtotal when there are materials, the
    subtotal, the tax when it is strictly positive, and the total; every
    amount is printed with a dollar sign and two decimals, and nothing
    else is printed in these two columns. *)
Theorem amount_columns (host : Host) (d : InvoiceData)
    (u : option BusinessInfo) (c : option ClientInfo) :
  let r := runCreatePDFDocument d u c in
  let lines :=
    labelled "Services Subtotal:" (Locals.servicesSubtotal r)
      (0 <? List.length (Locals.services r))%nat
    ++ labelled "Materials Subtotal:" (Locals.materialsSubtotal r)
         (0 <? List.length (Locals.materials r))%nat
    ++ labelled "Subtotal:" (Locals.subtotal r) true
    ++ labelled "Tax:" (Locals.taxAmount r) (0 <? Locals.taxAmount r)%float
    ++ labelled "TOTAL:" (Locals.total r) true in
  textsAt 135 (createPDFDocument d u c) = map fst lines
  /\ textsAt 175 (createPDFDocument d u c) = map snd lines.
Proof.
  intros r lines; subst r lines; unfold createPDFDocument, labelled.
  destruct (document_texts d u c 135) as (shown & e).
  destruct (document_texts d u c 175) as (shown' & e').
  rewrite e, e'; clear e e'; columns.
  destruct (0 <? List.length (Locals.services (runCreatePDFDocument d u c)))%nat,
           (0 <? List.length (Locals.materials (runCreatePDFDocument d u c)))%nat,
           (0 <? Locals.taxAmount (runCreatePDFDocument d u c))%float;
    cbn [app map fst snd]; split; reflexivity.
Qed.

(** X4.  The centre of the page (column 105) holds the thank-you line,
    twenty units above the foot of the page, followed by "Generated by"
    and the business name, fifteen units above the foot, exactly when the
    business has a name: a document headed by the fallback title "Invoice"
    names no generator. *)
Theorem footer_column (host : Host) (d : InvoiceData)
    (u : option BusinessInfo) (c : option ClientInfo) :
  let b := Locals.businessInfo (runCreatePDFDocument d u c) in
  textsAt 105 (createPDFDocument d u c)
  = "Thank you for your business!"%string
    :: (if JSString.truthy (businessName b)
        then [ ("Generated by " ++ JSString.orElse (businessName b) "")%string ]
        else [])
  /\ In (text "Thank you for your business!" 105 (pageHeight - 20) AlignCenter)
       (createPDFDocument d u c)
  /\ (JSString.truthy (businessName b) = true ->
      In (text ("Generated by " ++ JSString.orElse (businessName b) "")%string
            105 (pageHeight - 15) AlignCenter)
        (createPDFDocument d u c))
  /\ (JSString.truthy (businessName b) = false ->
      JSString.orElse (businessName b) "Invoice" = "Invoice"%string).
Proof.
  intros b; subst b; unfold createPDFDocument.
  conjuncts.
  - destruct (document_texts d u c 105) as (shown & e).
    rewrite e; columns.
    destruct (0 <? List.length (Locals.services (runCreatePDFDocument d u c)))%nat,
             (0 <? List.length (Locals.materials (runCreatePDFDocument d u c)))%nat,
             (0 <? Locals.taxAmount (runCreatePDFDocument d u c))%float;
      cbn [app]; reflexivity.
  - rewrite doc_afterFooter, footer_emitted.
    apply in_or_app; right; apply in_or_app; right; apply in_or_app; left.
    do 3 right; left; reflexivity.
  - intros Hn; rewrite doc_afterFooter, footer_emitted, Hn.
    apply in_or_app; right; apply in_or_app; right; apply in_or_app; right.
    right; left; reflexivity.
  - destruct (businessName (Locals.businessInfo (runCreatePDFDocument d u c)))
      as [[|a s]|]; [reflexivity | discriminate | reflexivity].
Qed.

Lemma footer_column_witness :
  let d := {| Data.invoice := None;
              Data.user := Some {| businessName := Some "Acme Plumbing"%string;
                                   businessAddress := None;
                                   businessPhone := None;
                                   businessEmail := None |};
              Data.client := None;
              Data.own := record Undefined None |} in
  JSString.truthy
    (businessName (Locals.businessInfo (@runCreatePDFDocument plainHost d None None)))
  = true
  /\ In (text "Generated by Acme Plumbing" 105 282 AlignCenter)
       (@createPDFDocument plainHost d None None).
Proof.
  intros d; split; [reflexivity|].
  destruct (footer_column plainHost d None None) as (_ & _ & g & _).
  exact (g eq_refl).
Defined.

(** X5.  Every text of the document stands at one of five columns: 20,
    150, 135, 175 or 105.  The composer prints nowhere else. *)
Theorem five_columns (host : Host) (d : InvoiceData)
    (u : option BusinessInfo) (c : option ClientInfo) :
  forallb aligned (createPDFDocument d u c) = true.
Proof. exact (document_aligned d u c). Qed.

(* ================================================================== *)
(** * Where the blocks stand *)

(** X6.  The document starts with the business name in 24-point bold at
    (20, 25), or "Invoice" when the business has no name, and under it the
    address, phone and e-mail that are there, stacked from y = 32 in steps
    of 5 with no gap left for a property that is absent or empty. *)
Theorem header_lines (host : Host) (d : InvoiceData)
    (u : option BusinessInfo) (c : option ClientInfo) :
  let b := Locals.businessInfo (runCreatePDFDocument d u c) in
  exists rest,
    createPDFDocument d u c
    = [ setFontSize 24;
        setTextColor darkGray;
        setFont "helvetica" "bold";
        text (JSString.orElse (businessName b) "Invoice") 20 25 AlignDefault;
        setFontSize 10;
        setFont "helvetica" "normal";
        setTextColor lightGray ]
      ++ stacked (presentLines [businessAddress b; businessPhone b; businessEmail b]) 32
      ++ rest.
Proof.
  intros b; subst b; unfold createPDFDocument.
  rewrite document_parts, header_emitted, <- app_assoc.
  eexists; reflexivity.
Qed.

(** X7.  "BILL TO:" is printed at the left margin at
    y = Math.max(yPos + 10, 55): at 57 when the business address, phone
    and e-mail are all there, and at 55 otherwise, whatever the invoice
    data on the right say. *)
Theorem bill_to_position (host : Host) (d : InvoiceData)
    (u : option BusinessInfo) (c : option ClientInfo) :
  let b := Locals.businessInfo (runCreatePDFDocument d u c) in
  In (text "BILL TO:" 20
        (if JSString.truthy (businessAddress b) && JSString.truthy (businessPhone b)
            && JSString.truthy (businessEmail b)
         then 57 else 55)
        AlignDefault)
     (createPDFDocument d u c).
Proof.
  intros b; subst b; unfold createPDFDocument.
  rewrite document_parts.
  destruct (billTo_label (Locals.clientInfo (runCreatePDFDocument d u c))
              (afterMetadata (runCreatePDFDocument d u c))) as (rest & e).
  rewrite e, cursor_afterMetadata.
  apply in_or_app; right; apply in_or_app; right; apply in_or_app; left.
  apply in_or_app; left; do 3 right; left.
  unfold presentLines; cbn [flat_map].
  destruct (JSString.truthy
              (businessAddress (Locals.businessInfo (runCreatePDFDocument d u c)))),
           (JSString.truthy
              (businessPhone (Locals.businessInfo (runCreatePDFDocument d u c)))),
           (JSString.truthy
              (businessEmail (Locals.businessInfo (runCreatePDFDocument d u c))));
    reflexivity.
Qed.

(** X8.  When the record has a description, jsPDF is asked to wrap it to a
    width of 150 against the document as it stands, and the lines it
    returns are printed right after that, each once and in order, at the
    left margin and 5 units apart. *)
Theorem description_lines (host : Host) (d : InvoiceData)
    (u : option BusinessInfo) (c : option ClientInfo) :
  let inv := Locals.invoice (runCreatePDFDocument d u c) in
  JSString.truthy (invoiceDescription inv) = true ->
  exists shown y rest,
    createPDFDocument d u c
    = shown
      ++ stacked
           (splitTextToSize shown (JSString.orElse (invoiceDescription inv) "") 150) y
      ++ rest.
Proof. intros inv; subst inv; exact (description_place d u c). Qed.

(** X9.  A section with items is: its heading at the left margin, the
    table of its rows two units below the heading, with the columns
    Description, Quantity, Rate (Price for materials) and Amount, and the
    subtotal line ten units below the place where jsPDF says the table
    ended, label and amount on the same line.  The services come first. *)
Theorem section_layout (host : Host) (d : InvoiceData)
    (u : option BusinessInfo) (c : option ClientInfo) :
  let r := runCreatePDFDocument d u c in
  (Locals.services r <> [] ->
   exists before y rest,
     createPDFDocument d u c
     = before
       ++ sectionCalls "SERVICES" "Rate" "Services Subtotal:"
            (map (fun it => fst (rowOf it)) (Locals.services r))
            (Locals.servicesSubtotal r) before y
       ++ rest)
  /\ (Locals.materials r <> [] ->
      exists before y rest,
        createPDFDocument d u c
        = before
          ++ sectionCalls "MATERIALS" "Price" "Materials Subtotal:"
               (map (fun it => fst (rowOf it)) (Locals.materials r))
               (Locals.materialsSubtotal r) before y
          ++ rest
        /\ (Locals.services r <> [] ->
            exists l, In (text "Services Subtotal:" 135 l AlignDefault) before)).
Proof.
  intros r; subst r; unfold createPDFDocument; split.
  - intros Hs.
    exists (doc (afterJob (runCreatePDFDocument d u c))),
      (yPos (afterJob (runCreatePDFDocument d u c))).
    rewrite doc_afterFooter, doc_afterMaterials, doc_afterServices.
    unfold servicesSection; rewrite section_emitted.
    destruct (Locals.services (runCreatePDFDocument d u c)) as [|it sv] eqn:E;
      [congruence|].
    cbn [List.length Nat.ltb Nat.leb].
    rewrite <- E, <- (servicesSubtotal_eq d u c), <- !app_assoc.
    eexists; reflexivity.
  - intros Hm.
    exists (doc (afterServices (runCreatePDFDocument d u c))),
      (yPos (afterServices (runCreatePDFDocument d u c))).
    rewrite doc_afterFooter, doc_afterMaterials.
    unfold materialsSection; rewrite section_emitted.
    destruct (Locals.materials (runCreatePDFDocument d u c)) as [|it mt] eqn:E;
      [congruence|].
    cbn [List.length Nat.ltb Nat.leb].
    rewrite <- E, <- (materialsSubtotal_eq d u c), <- !app_assoc.
    eexists; split; [reflexivity|].
    intros Hs; rewrite doc_afterServices.
    unfold servicesSection; rewrite section_emitted.
    destruct (Locals.services (runCreatePDFDocument d u c)) as [|it' sv] eqn:E';
      [congruence|].
    cbn [List.length Nat.ltb Nat.leb].
    eexists; apply in_or_app; right.
    unfold sectionCalls; do 8 right; left; reflexivity.
Qed.

Lemma section_layout_witness :
  Locals.services (@runCreatePDFDocument plainHost scenarioB None None) <> []
  /\ exists before y rest,
       @createPDFDocument plainHost scenarioB None None
       = before
         ++ @sectionCalls plainHost "SERVICES" "Rate" "Services Subtotal:"
              [["2 hours labor"%string; "2"%string; "$50.00"%string; "$100.00"%string]]
              100 before y
         ++ rest.
Proof.
  split; [discriminate|].
  exact (proj1 (section_layout plainHost scenarioB None None) ltac:(discriminate)).
Defined.

(** X10.  An invoice without a number (absent or empty) is saved as
    "Invoice-Draft.pdf" while the page says "Invoice #: N/A"; an invoice
    with the number n is saved as "Invoice-n.pdf" and the page says
    "Invoice #: n". *)
Theorem invoice_number_fallbacks (host : Host) (pdf : Instance)
    (d : InvoiceData) (u : option BusinessInfo) (c : option ClientInfo) :
  match invoiceNumber (Locals.invoice (runCreatePDFDocument d u c)) with
  | Some (String a n) =>
      fileName (generatePDF pdf d u c) = ("Invoice-" ++ String a n ++ ".pdf")%string
      /\ In (text ("Invoice #: " ++ String a n)%string 150 32 AlignDefault)
           (createPDFDocument d u c)
  | _ =>
      fileName (generatePDF pdf d u c) = "Invoice-Draft.pdf"%string
      /\ In (text "Invoice #: N/A" 150 32 AlignDefault) (createPDFDocument d u c)
  end.
Proof.
  assert (H : In (text ("Invoice #: "
                        ++ JSString.orElse
                             (invoiceNumber (Locals.invoice (runCreatePDFDocument d u c)))
                             "N/A")%string 150 32 AlignDefault)
                (createPDFDocument d u c)).
  { unfold createPDFDocument; rewrite document_parts, metadata_emitted.
    apply in_or_app; right; apply in_or_app; left; apply in_or_app; left.
    do 6 right; left; reflexivity. }
  assert (F : fileName (generatePDF pdf d u c)
              = ("Invoice-"
                 ++ JSString.orElse
                      (invoiceNumber (Locals.invoice (runCreatePDFDocument d u c)))
                      "Draft" ++ ".pdf")%string) by reflexivity.
  destruct (invoiceNumber (Locals.invoice (runCreatePDFDocument d u c)))
    as [[|a n]|]; split; first [exact F | exact H].
Qed.

Lemma description_lines_witness :
  JSString.truthy
    (invoiceDescription
       (Locals.invoice (@runCreatePDFDocument plainHost described None None)))
  = true
  /\ exists shown y rest,
       @createPDFDocument plainHost described None None
       = shown ++ stacked ["Replace the kitchen tap"%string] y ++ rest.
Proof.
  split; [reflexivity|].
  exact (description_lines plainHost described None None eq_refl).
Defined.

(* ================================================================== *)
(** * The chat components *)

Lemma trimEnd_empty (s : string) :
  isEmpty (trimEnd s) = allChars JSNumber.isWhiteSpace s.
Proof.
  induction s as [|c s IH]; [reflexivity|].
  cbn [trimEnd allChars]; rewrite <- IH.
  destruct (trimEnd s); cbn [isEmpty].
  - destruct (JSNumber.isWhiteSpace c); reflexivity.
  - now rewrite andb_false_r.
Qed.

Lemma trimStart_whiteSpace (s : string) :
  allChars JSNumber.isWhiteSpace (JSNumber.trimStart s)
  = allChars JSNumber.isWhiteSpace s.
Proof.
  induction s as [|c s IH]; [reflexivity|].
  cbn [JSNumber.trimStart allChars].
  destruct (JSNumber.isWhiteSpace c) eqn:E; [exact IH|].
  cbn [allChars]; now rewrite E.
Qed.

(** [!s.trim()] holds exactly when [s] is made of white space only. *)
Lemma trim_empty (s : string) :
  isEmpty (trim s) = allChars JSNumber.isWhiteSpace s.
Proof. unfold trim; now rewrite trimEnd_empty, trimStart_whiteSpace. Qed.

Lemma two_by_two {A : Type} (P : list A -> Prop) :
  P [] -> (forall a, P [a]) -> (forall a b l, P l -> P (a :: b :: l)) ->
  forall l, P l.
Proof.
  intros H0 H1 H2; fix IH 1; intros [|a [|b l]];
    [exact H0 | apply H1 | apply H2, IH].
Qed.

Lemma dialogue_ask (l : list Conversation.message) (q : Conversation.message) :
  Conversation.dialogue false l = true ->
  Conversation.isQuestion q = true ->
  Conversation.dialogue true (l ++ [q]) = true.
Proof.
  intros Hl Hq; revert Hl; induction l as [| a | a b l IH] using two_by_two.
  - intros _; cbn; now rewrite Hq.
  - cbn; now rewrite andb_false_r.
  - cbn [app Conversation.dialogue]; intros H.
    apply andb_true_iff in H as [Ha H]; apply andb_true_iff in H as [Hb H].
    now rewrite Ha, Hb, (IH H).
Qed.

Lemma dialogue_answer (l : list Conversation.message) (a : Conversation.message) :
  Conversation.dialogue true l = true ->
  Conversation.isUser a = false ->
  Conversation.dialogue false (l ++ [a]) = true.
Proof.
  intros Hl Ha; revert Hl; induction l as [| q | q b l IH] using two_by_two.
  - discriminate.
  - cbn; rewrite andb_true_r; intros ->; now rewrite Ha.
  - cbn [app Conversation.dialogue]; intros H.
    apply andb_true_iff in H as [Hq H]; apply andb_true_iff in H as [Hb H].
    now rewrite Hq, Hb, (IH H).
Qed.

(** Runs the updates of the state of a component. *)
Ltac agent_state :=
  cbv [AgentChat.setIsLoading AgentChat.setMessages AgentChat.setInput
       AgentChat.messages AgentChat.input AgentChat.isLoading].

Ltac sidebar_state :=
  cbv [AIlySidebar.setIsLoading AIlySidebar.setMessages AIlySidebar.setInput
       AIlySidebar.setIsTranscribing AIlySidebar.setIsRecording
       AIlySidebar.isOpen AIlySidebar.messages AIlySidebar.input
       AIlySidebar.isLoading AIlySidebar.isRecording AIlySidebar.isTranscribing
       AIlySidebar.mediaRecorder AIlySidebar.audioChunks].

(** X11.  [handleSend] does nothing when the field is empty or holds white
    space only.  Otherwise, once the request is settled, the transcript
    has grown by exactly two messages, the user's text as it was typed
    (not trimmed), which is also what the request carried, and then the
    server's reply, or the apology when an awaited call threw; the field
    is cleared and the loading flag is off again. *)
Theorem send_message (agent : string -> Conversation.response)
    (st : AgentChat.state) :
  AgentChat.handleSend agent st
  = if allChars JSNumber.isWhiteSpace (AgentChat.input st) then st
    else
      {| AgentChat.messages :=
           AgentChat.messages st
           ++ [ {| Conversation.role := Conversation.user;
                   Conversation.content := Some (AgentChat.input st) |};
                {| Conversation.role := Conversation.assistant;
                   Conversation.content :=
                     match agent (AgentChat.input st) with
                     | Conversation.Replied reply => reply
                     | Conversation.Threw => Some AgentChat.apology
                     end |} ];
         AgentChat.input := "";
         AgentChat.isLoading := false |}.
Proof.
  unfold AgentChat.handleSend, AgentChat.handleSendStart.
  rewrite trim_empty.
  destruct (allChars JSNumber.isWhiteSpace (AgentChat.input st)); [reflexivity|].
  unfold AgentChat.handleSendEnd.
  destruct (agent (AgentChat.input st));
    agent_state; now rewrite <- app_assoc.
Qed.

Section Transcript.

Import Conversation AgentChat.

(** What holds between two events: the transcript is the greeting and then
    questions and answers in turn, with a question open exactly while the
    component is loading. *)
Lemma react_dialogue (g : message) (st : state) (e : event) :
  (exists rest, messages st = g :: rest /\ dialogue (isLoading st) rest = true) ->
  exists rest,
    messages (react st e) = g :: rest /\ dialogue (isLoading (react st e)) rest = true.
Proof.
  intros (rest & em & Hd).
  destruct e as [value | | o]; cbn [react].
  - destruct (isLoading st) eqn:L; cbn; rewrite ?L; eauto.
  - destruct (isLoading st) eqn:L; [rewrite L; eauto|].
    unfold handleSendStart.
    destruct (isEmpty (trim (input st))) eqn:B; [rewrite L; eauto|].
    cbn; rewrite em; exists (rest ++ [ {| role := user; content := Some (input st) |} ]).
    split; [reflexivity|].
    apply dialogue_ask; [exact Hd|].
    unfold isQuestion; cbn; now rewrite B.
  - destruct (isLoading st) eqn:L; [|rewrite L; eauto].
    destruct o as [|reply]; cbn; rewrite em; eexists;
      (split; [reflexivity | now apply dialogue_answer]).
Qed.

Lemma react_grows (st : state) (e : event) :
  exists more, messages (react st e) = messages st ++ more.
Proof.
  destruct e as [value | | o]; cbn [react].
  - exists []; rewrite app_nil_r; now destruct (isLoading st).
  - destruct (isLoading st); [exists []; now rewrite app_nil_r|].
    unfold handleSendStart.
    destruct (isEmpty (trim (input st))); [exists []; now rewrite app_nil_r|].
    eexists; reflexivity.
  - destruct (isLoading st); [|exists []; now rewrite app_nil_r].
    destruct o; eexists; reflexivity.
Qed.

End Transcript.

(** X12.  Whatever the user types and submits and however the requests are
    settled, the transcript of [AgentChat] is the greeting followed by
    questions and answers in turn; every question is a text of the user
    that is not blank; and the last message is a question still without
    its answer exactly while the component is loading. *)
Theorem transcript_alternates (welcome : string) (events : list AgentChat.event) :
  let st := AgentChat.run events (AgentChat.initial welcome) in
  exists rest,
    AgentChat.messages st
    = {| Conversation.role := Conversation.assistant;
         Conversation.content := Some welcome |} :: rest
    /\ Conversation.dialogue (AgentChat.isLoading st) rest = true.
Proof.
  unfold AgentChat.run.
  assert (H : exists rest,
             AgentChat.messages (AgentChat.initial welcome)
             = {| Conversation.role := Conversation.assistant;
                  Conversation.content := Some welcome |} :: rest
             /\ Conversation.dialogue
                  (AgentChat.isLoading (AgentChat.initial welcome)) rest = true)
    by (exists []; split; reflexivity).
  revert H; generalize (AgentChat.initial welcome).
  induction events as [|e events IH]; intros st H; [exact H|].
  cbn [fold_left]; apply IH, react_dialogue, H.
Qed.

(** X13.  The transcript of [AgentChat] only grows: no event removes or
    rewrites a message that is already there. *)
Theorem transcript_only_grows (events : list AgentChat.event)
    (st : AgentChat.state) :
  exists more,
    AgentChat.messages (AgentChat.run events st) = AgentChat.messages st ++ more.
Proof.
  unfold AgentChat.run; revert st.
  induction events as [|e events IH]; intros st.
  - exists []; cbn; now rewrite app_nil_r.
  - cbn [fold_left].
    destruct (IH (AgentChat.react st e)) as (more & em).
    destruct (react_grows st e) as (more' & em').
    exists (more' ++ more); now rewrite em, em', app_assoc.
Qed.

(** X14.  A voice command: whatever the voice request comes to, the
    transcribing flag is off at the end.  When the server heard a text
    that is not blank, the effect is that of sending it: the text and the
    answer (or "Connection lost. Check server.") are added to the
    transcript and the field is cleared.  When the text heard is white
    space only, nothing is sent and the text stays in the field.  When the
    request failed or nothing was heard, transcript and field are as they
    were. *)
Theorem voice_command (transcriber : string -> AIlySidebar.transcription)
    (agent : string -> Conversation.response) (blob : string)
    (st : AIlySidebar.state) :
  let st' := AIlySidebar.handleVoiceTranscription transcriber agent blob st in
  AIlySidebar.isTranscribing st' = false
  /\ match transcriber blob with
     | AIlySidebar.Heard (Some (String a t)) =>
         if allChars JSNumber.isWhiteSpace (String a t)
         then AIlySidebar.messages st' = AIlySidebar.messages st
              /\ AIlySidebar.input st' = String a t
              /\ AIlySidebar.isLoading st' = AIlySidebar.isLoading st
         else AIlySidebar.messages st'
              = AIlySidebar.messages st
                ++ [ {| Conversation.role := Conversation.user;
                        Conversation.content := Some (String a t) |};
                     {| Conversation.role := Conversation.assistant;
                        Conversation.content :=
                          match agent (String a t) with
                          | Conversation.Replied reply => reply
                          | Conversation.Threw => Some AIlySidebar.connectionLost
                          end |} ]
              /\ AIlySidebar.input st' = ""%string
              /\ AIlySidebar.isLoading st' = false
     | _ =>
         AIlySidebar.messages st' = AIlySidebar.messages st
         /\ AIlySidebar.input st' = AIlySidebar.input st
         /\ AIlySidebar.isLoading st' = AIlySidebar.isLoading st
     end.
Proof.
  intros st'; subst st'; unfold AIlySidebar.handleVoiceTranscription.
  split; [reflexivity|].
  destruct (transcriber blob) as [|[[|a t]|]]; cbn [JSString.truthy JSString.orElse];
    try (conjuncts; reflexivity).
  unfold AIlySidebar.executeChat, AIlySidebar.executeChatStart.
  rewrite trim_empty.
  destruct (allChars JSNumber.isWhiteSpace (String a t)); [conjuncts; reflexivity|].
  unfold AIlySidebar.executeChatEnd.
  destruct (agent (String a t)); cbn; rewrite <- app_assoc; conjuncts; reflexivity.
Qed.

Lemma append_empty (s : string) : (s ++ "")%string = s.
Proof. induction s as [|a s IH]; [reflexivity | cbn; now rewrite IH]. Qed.

Lemma append_append (a b c : string) :
  ((a ++ b) ++ c)%string = (a ++ (b ++ c))%string.
Proof. induction a as [|x a IH]; [reflexivity | cbn; now rewrite IH]. Qed.

Lemma concat_cons (a : string) (l : list string) :
  String.concat "" (a :: l) = (a ++ String.concat "" l)%string.
Proof.
  destruct l as [|b l]; cbn [String.concat append];
    [now rewrite append_empty | reflexivity].
Qed.

Lemma concat_append (l1 l2 : list string) :
  String.concat "" (l1 ++ l2) = (String.concat "" l1 ++ String.concat "" l2)%string.
Proof.
  induction l1 as [|a l1 IH]; [reflexivity|].
  change ((a :: l1) ++ l2) with (a :: (l1 ++ l2)).
  now rewrite !concat_cons, IH, append_append.
Qed.

Lemma ondataavailable_blob (chunks : list string) (st : AIlySidebar.state) :
  AIlySidebar.audioBlob
    (fold_left (fun s data => AIlySidebar.ondataavailable data s) chunks st)
  = (AIlySidebar.audioBlob st ++ String.concat "" chunks)%string
  /\ AIlySidebar.mediaRecorder
       (fold_left (fun s data => AIlySidebar.ondataavailable data s) chunks st)
     = AIlySidebar.mediaRecorder st
  /\ AIlySidebar.isRecording
       (fold_left (fun s data => AIlySidebar.ondataavailable data s) chunks st)
     = AIlySidebar.isRecording st.
Proof.
  revert st; induction chunks as [|data chunks IH]; intros st.
  - cbn; now rewrite append_empty.
  - cbn [fold_left]; destruct (IH (AIlySidebar.ondataavailable data st)) as (e & m & i).
    rewrite e, m, i; clear e m i IH.
    change (data :: chunks) with ([data] ++ chunks); rewrite concat_append.
    unfold AIlySidebar.ondataavailable, AIlySidebar.audioBlob.
    destruct data as [|a data]; cbn [String.length Nat.ltb Nat.leb].
    + conjuncts; reflexivity.
    + cbn [AIlySidebar.audioChunks AIlySidebar.mediaRecorder AIlySidebar.isRecording].
      rewrite concat_append, append_append; conjuncts; reflexivity.
Qed.

Lemma ondataavailable_chunks (chunks : list string) (st : AIlySidebar.state) :
  AIlySidebar.audioChunks
    (fold_left (fun s data => AIlySidebar.ondataavailable data s) chunks st)
  = AIlySidebar.audioChunks st
    ++ filter (fun data => (0 <? String.length data)%nat) chunks.
Proof.
  revert st; induction chunks as [|data chunks IH]; intros st.
  - cbn; now rewrite app_nil_r.
  - cbn [fold_left filter]; rewrite IH.
    unfold AIlySidebar.ondataavailable.
    destruct (0 <? String.length data)%nat; [|reflexivity].
    cbn [AIlySidebar.audioChunks]; now rewrite <- app_assoc.
Qed.

(** X15.  A recording: once the microphone is granted, the chunks of an
    earlier recording are dropped.  The recorder's data, whether they come
    before or after the user stops, are kept in the order of arrival,
    except the empty ones.  When the user stops, the recorder is told to
    stop and the recording flag goes off.  The blob that [onstop] hands to
    the transcription is all the audio delivered since the start.  When
    the microphone is refused, the state is as it was and the user is told
    "Microphone access denied.". *)
Theorem recording_session (transcriber : string -> AIlySidebar.transcription)
    (agent : string -> Conversation.response)
    (st : AIlySidebar.state) (before after : list string) :
  let deliver :=
    fold_left (fun s data => AIlySidebar.ondataavailable data s) in
  let started := fst (AIlySidebar.startRecording true st) in
  let stopped := AIlySidebar.stopRecording (deliver before started) in
  let final := deliver after (fst stopped) in
  snd stopped = true
  /\ AIlySidebar.isRecording (fst stopped) = false
  /\ AIlySidebar.audioChunks final
     = filter (fun data => (0 <? String.length data)%nat) (before ++ after)
  /\ AIlySidebar.onstop transcriber agent final
     = AIlySidebar.handleVoiceTranscription transcriber agent
         (String.concat "" (before ++ after)) final
  /\ AIlySidebar.startRecording false st = (st, Some "Microphone access denied."%string).
Proof.
  intros deliver started stopped final.
  destruct (ondataavailable_blob before started) as (e & m & i).
  fold (deliver before started) in e, m, i.
  assert (S : stopped
              = (AIlySidebar.setIsRecording false (deliver before started), true)).
  { unfold stopped, AIlySidebar.stopRecording; now rewrite m, i. }
  destruct (ondataavailable_blob after (fst stopped)) as (e' & _ & _).
  fold (deliver after (fst stopped)) in e'; fold final in e'.
  conjuncts.
  - now rewrite S.
  - now rewrite S.
  - unfold final, deliver; rewrite ondataavailable_chunks, S; cbn [fst].
    change (AIlySidebar.audioChunks (AIlySidebar.setIsRecording false ?s))
      with (AIlySidebar.audioChunks s).
    now rewrite ondataavailable_chunks, filter_app.
  - unfold AIlySidebar.onstop; f_equal.
    rewrite e', S; cbn [fst].
    change (AIlySidebar.audioBlob (AIlySidebar.setIsRecording false ?s))
      with (AIlySidebar.audioBlob s).
    now rewrite e, concat_append.
  - reflexivity.
Qed.

(* ================================================================== *)
(** * base64 loses nothing *)

Lemma sextet_notPadding (n : N) : (JSString.sextet n =? "=")%char = false.
Proof.
  apply negb_true_iff; change (notPadding (JSString.sextet n) = true).
  unfold JSString.sextet.
  destruct (String.get (N.to_nat n) JSString.alphabet) as [c|] eqn:E; [|reflexivity].
  exact (allChars_get notPadding JSString.alphabet _ c eq_refl E).
Qed.

Lemma unsextet_sextet (n : N) : (n < 64)%N -> unsextet (JSString.sextet n) = n.
Proof.
  intros H.
  assert (A : forallb (fun k => (unsextet (JSString.sextet (N.of_nat k)) =? N.of_nat k)%N)
                (List.seq 0 64) = true) by (vm_compute; reflexivity).
  rewrite forallb_forall in A.
  specialize (A (N.to_nat n)); rewrite Nnat.N2Nat.id in A.
  apply N.eqb_eq, A, in_seq; lia.
Qed.

Lemma byte_bound (a : ascii) : (N_of_ascii a < 256)%N.
Proof. apply N_ascii_bounded. Qed.

Lemma sextet1_bound (x : N) : (x < 256 -> x / 4 < 64)%N.
Proof. intros H; apply N.Div0.div_lt_upper_bound; lia. Qed.

Lemma sextet2_bound (x y : N) : (y < 256 -> x mod 4 * 16 + y / 16 < 64)%N.
Proof.
  intros H.
  assert (x mod 4 < 4)%N by (apply N.mod_lt; lia).
  assert (y / 16 < 16)%N by (apply N.Div0.div_lt_upper_bound; lia).
  lia.
Qed.

Lemma sextet3_bound (y z : N) : (z < 256 -> y mod 16 * 4 + z / 64 < 64)%N.
Proof.
  intros H.
  assert (y mod 16 < 16)%N by (apply N.mod_lt; lia).
  assert (z / 64 < 4)%N by (apply N.Div0.div_lt_upper_bound; lia).
  lia.
Qed.

Lemma sextet4_bound (z : N) : (z mod 64 < 64)%N.
Proof. apply N.mod_lt; lia. Qed.

Lemma first_byte (x y : N) :
  (y < 256 -> x / 4 * 4 + (x mod 4 * 16 + y / 16) / 16 = x)%N.
Proof.
  intros H.
  assert (y / 16 < 16)%N by (apply N.Div0.div_lt_upper_bound; lia).
  rewrite N.div_add_l, (N.div_small (y / 16) 16), N.add_0_r by lia.
  rewrite (N.div_mod x 4) at 3 by lia; lia.
Qed.

Lemma second_byte (x y z : N) :
  (y < 256 -> z < 256 ->
   (x mod 4 * 16 + y / 16) mod 16 * 16 + (y mod 16 * 4 + z / 64) / 4 = y)%N.
Proof.
  intros Hy Hz.
  assert (y / 16 < 16)%N by (apply N.Div0.div_lt_upper_bound; lia).
  assert (z / 64 < 4)%N by (apply N.Div0.div_lt_upper_bound; lia).
  rewrite (N.add_comm (x mod 4 * 16) (y / 16)), N.Div0.mod_add,
    (N.mod_small (y / 16) 16) by lia.
  rewrite N.div_add_l, (N.div_small (z / 64) 4), N.add_0_r by lia.
  rewrite (N.div_mod y 16) at 3 by lia; lia.
Qed.

Lemma third_byte (y z : N) :
  (z < 256 -> (y mod 16 * 4 + z / 64) mod 4 * 64 + z mod 64 = z)%N.
Proof.
  intros Hz.
  assert (z / 64 < 4)%N by (apply N.Div0.div_lt_upper_bound; lia).
  rewrite (N.add_comm (y mod 16 * 4) (z / 64)), N.Div0.mod_add,
    (N.mod_small (z / 64) 4) by lia.
  rewrite (N.div_mod z 64) at 3 by lia; lia.
Qed.

Lemma sextet2_bound_padded (x : N) : (x < 256 -> x mod 4 * 16 < 64)%N.
Proof. intros H; assert (x mod 4 < 4)%N by (apply N.mod_lt; lia); lia. Qed.

Lemma sextet3_bound_padded (y : N) : (y < 256 -> y mod 16 * 4 < 64)%N.
Proof. intros H; assert (y mod 16 < 16)%N by (apply N.mod_lt; lia); lia. Qed.

Lemma first_byte_padded (x : N) : (x / 4 * 4 + x mod 4 * 16 / 16 = x)%N.
Proof. rewrite N.div_mul by lia; rewrite (N.div_mod x 4) at 3 by lia; lia. Qed.

Lemma second_byte_padded (x y : N) :
  (y < 256 -> (x mod 4 * 16 + y / 16) mod 16 * 16 + y mod 16 * 4 / 4 = y)%N.
Proof.
  intros Hy.
  assert (y / 16 < 16)%N by (apply N.Div0.div_lt_upper_bound; lia).
  rewrite (N.add_comm (x mod 4 * 16) (y / 16)), N.Div0.mod_add,
    (N.mod_small (y / 16) 16) by lia.
  rewrite N.div_mul by lia; rewrite (N.div_mod y 16) at 3 by lia; lia.
Qed.

Lemma atob_btoa_steps (s : string) :
  atob (JSString.btoa s) = s
  /\ (forall a, atob (JSString.btoa (String a s)) = String a s)
  /\ (forall a b, atob (JSString.btoa (String a (String b s))) = String a (String b s)).
Proof.
  induction s as [|c s (IH1 & IH2 & IH3)].
  - conjuncts; [reflexivity | |].
    + intros a; cbn [JSString.btoa atob].
      pose proof (byte_bound a) as Ha.
      change ("=" =? "=")%char with true; cbv iota.
      rewrite (unsextet_sextet _ (sextet1_bound _ Ha)),
        (unsextet_sextet _ (sextet2_bound_padded _ Ha)).
      now rewrite first_byte_padded, ascii_N_embedding.
    + intros a b; cbn [JSString.btoa atob].
      pose proof (byte_bound a) as Ha; pose proof (byte_bound b) as Hb.
      rewrite sextet_notPadding; change ("=" =? "=")%char with true; cbv iota.
      rewrite (unsextet_sextet _ (sextet1_bound _ Ha)),
        (unsextet_sextet _ (sextet2_bound _ _ Hb)),
        (unsextet_sextet _ (sextet3_bound_padded _ Hb)).
      rewrite (first_byte _ _ Hb), (second_byte_padded _ _ Hb).
      now rewrite !ascii_N_embedding.
  - conjuncts; [apply IH2 | intros a; apply IH3 |].
    intros a b; cbn [JSString.btoa atob].
    pose proof (byte_bound a) as Ha; pose proof (byte_bound b) as Hb.
    pose proof (byte_bound c) as Hc.
    rewrite !sextet_notPadding; cbv iota.
    rewrite (unsextet_sextet _ (sextet1_bound _ Ha)),
      (unsextet_sextet _ (sextet2_bound _ _ Hb)),
      (unsextet_sextet _ (sextet3_bound _ _ Hc)),
      (unsextet_sextet _ (sextet4_bound _)).
    rewrite (first_byte _ _ Hb), (second_byte _ _ _ Hb Hc), (third_byte _ _ Hc).
    now rewrite !ascii_N_embedding, IH1.
Qed.

(** [atob] reads back what [btoa] wrote. *)
Lemma atob_btoa (s : string) : atob (JSString.btoa s) = s.
Proof. apply atob_btoa_steps. Qed.

(** X16.  The string that [generatePDFBase64] returns is the base64 text of
    the PDF of the jsPDF object built in that call, and nothing else: read
    back with [atob], it is byte for byte the output of that object. *)
Theorem base64_round_trip (host : Host) (pdf : Instance) (d : InvoiceData)
    (u : option BusinessInfo) (c : option ClientInfo) :
  option_map atob (generatePDFBase64 pdf d u c)
  = Some (output pdf (createPDFDocument d u c)).
Proof.
  unfold generatePDFBase64, outputDataUriString.
  rewrite (split_data_uri _ (btoa_notComma _)); cbn [option_map].
  now rewrite atob_btoa.
Qed.

(* ================================================================== *)
(** * The tables are well formed *)

Lemma quiet_fourColumns (c : call) : quiet c = true -> fourColumns c = true.
Proof. destruct c; cbn; congruence. Qed.

Lemma rows_fourColumns (items : list LineItem) :
  forallb (fun row => (List.length row =? 4)%nat)
    (map (fun it => fst (rowOf it)) items) = true.
Proof. induction items as [|it items IH]; [reflexivity | exact IH]. Qed.

Section Tables.

Context {host : Host}.

Lemma quiet_emitted_fourColumns (f : step) (st : layout) :
  adds quiet f -> forallb fourColumns (emitted f st) = true.
Proof.
  intros H; eapply forallb_weaken; [exact quiet_fourColumns|].
  exact (proj2 (adds_emitted quiet f st H)).
Qed.

Lemma section_fourColumns (heading column label : string) (items : list LineItem)
    (st : layout) :
  forallb fourColumns
    (emitted (fun st => fst (tableSection heading column label items 0 st)) st)
  = true.
Proof.
  rewrite section_emitted.
  destruct (0 <? List.length items)%nat; [|reflexivity].
  unfold sectionCalls; cbn [app forallb fourColumns List.length Nat.eqb andb].
  now rewrite rows_fourColumns.
Qed.

End Tables.

(** X17.  Every table of the document has a head of four columns and four
    cells in every row: the description, the quantity, the rate and the
    amount of an item. *)
Theorem tables_well_formed (host : Host) (d : InvoiceData)
    (u : option BusinessInfo) (c : option ClientInfo) :
  forallb fourColumns (createPDFDocument d u c) = true.
Proof.
  unfold createPDFDocument; rewrite document_parts, !forallb_app.
  repeat match goal with
         | |- (_ && _)%bool = true => apply andb_true_iff; split
         end.
  - apply quiet_emitted_fourColumns, headerBlock_quiet.
  - apply quiet_emitted_fourColumns, metadataBlock_quiet.
  - apply quiet_emitted_fourColumns, billToBlock_quiet.
  - apply quiet_emitted_fourColumns, jobBlock_quiet.
  - apply section_fourColumns.
  - apply section_fourColumns.
  - unfold totalsCalls;
      now destruct (0 <? Locals.taxAmount (runCreatePDFDocument d u c))%float.
  - apply quiet_emitted_fourColumns, footerBlock_quiet.
Qed.
